(** * A shallow embedding of the context-augmented generation pipeline

    The development follows the Python sources:
    - [services/dataset_service.py]  (module [Dataset])
    - [config/ollama_config.py], [services/ollama_service.py]  (module [Ollama])
    - [api/v1/endpoints/chat.py]  (module [Chat])
    - [crud/chat.py], [api/v1/endpoints/users.py]  (module [Users])
    - [crud/chat.py] on the rows of the table  (module [ChatCRUD]), with the
      message endpoints of [api/v1/endpoints/chat.py]  (module [Messages])
    - the probes of [api/v1/endpoints/ollama.py]  (module [OllamaEndpoints])

    Python [str] values are modelled as [string]; characters are the code
    points below 256.  Exceptions are explicit: a computation that may raise
    returns a [PyResult]. *)

From Stdlib Require Import ZArith List String Ascii Bool Lia.
From Stdlib Require Import Permutation Sorted QArith DecimalString.
From Stdlib Require Import DecimalZ DecimalFacts DecimalPos.
From stdpp Require Import gmap strings list fin_maps.

Open Scope string_scope.
Open Scope Z_scope.

(** ** Python exceptions and results *)

Inductive PyExc :=
| AttributeError (msg : string)
| KeyError (key : string)
| TypeError (msg : string)
| ValueError (msg : string)
| ConnectionError (msg : string)
| TimeoutError (msg : string)
| Exception (msg : string).

Inductive PyResult (A : Type) :=
| Ok (a : A)
| Raise (e : PyExc).
Arguments Ok {A} a.
Arguments Raise {A} e.

(** [str(e)] for an exception. *)
Definition exc_str (e : PyExc) : string :=
  match e with
  | AttributeError m | TypeError m | ValueError m
  | ConnectionError m | TimeoutError m | Exception m => m
  | KeyError k => "'" ++ k ++ "'"
  end.

(** ** The operations of [str] the code uses *)

Module PyStr.

Definition in_range (lo hi n : nat) : bool := ((lo <=? n) && (n <=? hi))%nat.

(** Upper-case code points below 256: A-Z, and U+00C0..U+00DE without the
    multiplication sign U+00D7. *)
Definition is_upper (c : ascii) : bool :=
  let n := nat_of_ascii c in
  in_range 65 90 n || (in_range 192 222 n && negb (n =? 215)%nat).

Definition lower_char (c : ascii) : ascii :=
  if is_upper c then ascii_of_nat (nat_of_ascii c + 32) else c.

(** [s.lower()] *)
Fixpoint lower (s : string) : string :=
  match s with
  | EmptyString => EmptyString
  | String c s' => String (lower_char c) (lower s')
  end.

(** [needle in hay] *)
Fixpoint contains (needle hay : string) : bool :=
  if String.prefix needle hay then true
  else match hay with
       | EmptyString => false
       | String _ hay' => contains needle hay'
       end.

(** [sep.join(parts)] *)
Fixpoint join (sep : string) (parts : list string) : string :=
  match parts with
  | [] => ""
  | [p] => p
  | p :: ps => p ++ sep ++ join sep ps
  end.

(** [s[:stop]] with Python's treatment of a negative or too large stop. *)
Definition slice_to (s : string) (stop : Z) : string :=
  let len := Z.of_nat (String.length s) in
  let stop' := if stop <? 0 then Z.max 0 (stop + len) else Z.min stop len in
  String.substring 0 (Z.to_nat stop') s.

(** The character class [[A-Za-z0-9']] of the tokenizer. *)
Definition is_word_char (c : ascii) : bool :=
  let n := nat_of_ascii c in
  in_range 65 90 n || in_range 97 122 n || in_range 48 57 n || (n =? 39)%nat.

Definition flush (cur : string) : list string :=
  match cur with
  | EmptyString => []
  | _ => [cur]
  end.

(** The scan of [re.findall(r"[A-Za-z0-9']+", s)]: [cur] is the run being
    read; a character outside the class closes it. *)
Fixpoint findall_from (cur s : string) : list string :=
  match s with
  | EmptyString => flush cur
  | String c s' =>
      if is_word_char c then findall_from (cur ++ String c "") s'
      else flush cur ++ findall_from "" s'
  end.

Definition findall_words (s : string) : list string := findall_from "" s.

(** [x in a_set_of_strings] *)
Definition mem (x : string) (l : list string) : bool := existsb (String.eqb x) l.

(** [str(n)] for an integer. *)
Definition str_of_Z (n : Z) : string := NilZero.string_of_int (Z.to_int n).

(** Every character of [s] is in the tokenizer's class. *)
Fixpoint all_word (s : string) : bool :=
  match s with
  | EmptyString => true
  | String c s' => is_word_char c && all_word s'
  end.

(** Line boundaries of [str.splitlines] below code point 256. *)
Definition is_linebreak (c : ascii) : bool :=
  let n := nat_of_ascii c in
  in_range 10 13 n || in_range 28 30 n || (n =? 133)%nat.

(** [s.splitlines()]; [cur] is the line being read, and a carriage return
    followed by a line feed is one boundary. *)
Fixpoint splitlines_from (cur s : string) : list string :=
  match s with
  | EmptyString => flush cur
  | String c s' =>
      if (nat_of_ascii c =? 13)%nat then
        match s' with
        | String c2 s'' =>
            if (nat_of_ascii c2 =? 10)%nat then cur :: splitlines_from "" s''
            else cur :: splitlines_from "" s'
        | EmptyString => [cur]
        end
      else if is_linebreak c then cur :: splitlines_from "" s'
      else splitlines_from (cur ++ String c "") s'
  end.

Definition splitlines (s : string) : list string := splitlines_from "" s.

(** Every character of [s] satisfies [p]. *)
Fixpoint all_chars (p : ascii -> bool) (s : string) : bool :=
  match s with
  | EmptyString => true
  | String c s' => p c && all_chars p s'
  end.

(** The characters a keyword can consist of: a-z, 0-9 and the apostrophe. *)
Definition is_keyword_char (c : ascii) : bool :=
  let n := nat_of_ascii c in
  in_range 97 122 n || in_range 48 57 n || (n =? 39)%nat.

(** A character other than the colon. *)
Definition not_colon (c : ascii) : bool := negb (Ascii.eqb c ":").

End PyStr.


(** ** services/dataset_service.py *)

Module Dataset.

(** A cell of the normalized DataFrame, as pandas hands it to Python:
    [None] (a logical field with no source column), NaN (a missing CSV
    value), a string, an integer or a boolean. *)
Inductive Cell :=
| CNone
| CNaN
| CStr (s : string)
| CInt (n : Z)
| CBool (b : bool).

(** [bool(v)] *)
Definition truthy (v : Cell) : bool :=
  match v with
  | CNone => false
  | CNaN => true
  | CStr s => negb (s =? "")%string
  | CInt n => negb (n =? 0)
  | CBool b => b
  end.

(** [str(v)] *)
Definition py_str (v : Cell) : string :=
  match v with
  | CNone => "None"
  | CNaN => "nan"
  | CStr s => s
  | CInt n => PyStr.str_of_Z n
  | CBool true => "True"
  | CBool false => "False"
  end.

(** One row of [self._df]: the five logical columns and the haystack. *)
Record FrameRow := mkFrameRow {
  col_timestamp : Cell;
  col_track : Cell;
  col_artist : Cell;
  col_album : Cell;
  col_ms_played : Cell;
  col_haystack : string
}.

Definition DataFrame := list FrameRow.

Record DatasetRow := mkDatasetRow {
  timestamp : option string;
  track : option string;
  artist : option string;
  album : option string;
  ms_played : option string
}.

(** The order of a frame sorted by ["_score"] descending. *)
Definition by_score_desc (x y : FrameRow * Z) : Prop := snd y <= snd x.

(** The two pandas operations whose result the code does not determine.
    [sort_values("_score", ascending=False)] is called with the default
    [kind="quicksort"]; pandas documents [mergesort] and [stable] as the only
    stable kinds, so what is known of the result is that it is a
    rearrangement of the rows with the scores descending.
    [sample(n=..., random_state=42)] is a fixed-seed draw of [n] rows. *)
Class Pandas := {
  sort_values : list (FrameRow * Z) -> list (FrameRow * Z);
  sort_values_perm : forall l, Permutation (sort_values l) l;
  sort_values_sorted :
    forall l, StronglySorted by_score_desc (sort_values l);
  sample : nat -> DataFrame -> DataFrame;
  sample_length :
    forall n d, (n <= length d)%nat -> length (sample n d) = n
}.

(** [frame.head(n)], i.e. [frame.iloc[:n]]. *)
Definition head {A : Type} (n : Z) (l : list A) : list A :=
  let len := Z.of_nat (length l) in
  take (Z.to_nat (if n <? 0 then Z.max 0 (n + len) else n)) l.

(** What the service sees of the file system: whether the path exists, and
    the outcome of [pd.read_csv(path, encoding=enc, engine="python")]
    followed by [_normalize_columns]; [None] stands for an exception in
    either. *)
Inductive Encoding := utf_8 | utf_8_sig | cp1252.

Record FileSystem := {
  path_exists : string -> bool;
  read_normalized : string -> Encoding -> option DataFrame
}.

(** The fields of a [DatasetContextService]. *)
Record Service := mkService {
  csv_path : option string;
  _loaded : bool;
  _df : option DataFrame
}.

(** [__init__]: an empty path counts as no path. *)
Definition init (settings_path csv_path : option string) : Service :=
  let csv_path := match csv_path with None => settings_path | Some p => Some p end in
  {| csv_path := match csv_path with
                 | Some EmptyString => None
                 | p => p
                 end;
     _loaded := false;
     _df := None |}.

Definition is_available (fs : FileSystem) (self : Service) : bool :=
  match csv_path self with
  | Some p =>
      path_exists fs p && _loaded self
      && match _df self with Some _ => true | None => false end
  | None => false
  end.

Definition try_encodings : list Encoding := [utf_8; utf_8_sig; cp1252].

(** The [for enc in try_encodings] loop of [load_dataset]. *)
Fixpoint load_loop (fs : FileSystem) (self : Service) (p : string)
    (encs : list Encoding) : Service * bool :=
  match encs with
  | [] => ({| csv_path := csv_path self; _loaded := false; _df := None |}, false)
  | enc :: rest =>
      match read_normalized fs p enc with
      | Some d => ({| csv_path := csv_path self; _loaded := true; _df := Some d |}, true)
      | None => load_loop fs self p rest
      end
  end.

Definition load_dataset (fs : FileSystem) (self : Service) : Service * bool :=
  match csv_path self with
  | Some p =>
      if path_exists fs p then load_loop fs self p try_encodings
      else ({| csv_path := csv_path self; _loaded := false; _df := None |}, false)
  | None => ({| csv_path := csv_path self; _loaded := false; _df := None |}, false)
  end.

Definition stop_words : list string :=
  [ "the"; "a"; "an"; "and"; "or"; "but"; "in"; "on"; "at"; "to"; "for"; "of"; "with"; "by";
    "is"; "are"; "was"; "were"; "be"; "been"; "being"; "have"; "has"; "had"; "do"; "does"; "did";
    "will"; "would"; "could"; "should"; "may"; "might"; "can"; "this"; "that"; "these"; "those";
    "i"; "you"; "he"; "she"; "it"; "we"; "they"; "me"; "him"; "her"; "us"; "them";
    "my"; "your"; "his"; "her"; "its"; "our"; "their"; "mine"; "yours"; "his"; "hers"; "ours"; "theirs" ].

Definition _extract_keywords (text : string) : list string :=
  let words := PyStr.findall_words (PyStr.lower text) in
  List.filter (fun w => (1 <? String.length w)%nat && negb (PyStr.mem w stop_words)) words.

Definition music_keywords : list string :=
  [ "song"; "songs"; "music"; "track"; "tracks"; "artist"; "artists"; "album"; "albums";
    "spotify"; "listen"; "listening"; "played"; "play"; "plays"; "favorite"; "best"; "top";
    "history"; "data"; "dataset"; "records"; "entries"; "taste"; "preference" ].

Definition _is_music_related_query (query : string) : bool :=
  let query_lower := PyStr.lower query in
  existsb (fun keyword => PyStr.contains keyword query_lower) music_keywords.

(** [str(r.get(col) or "") or None] *)
Definition field (v : Cell) : option string :=
  let s := if truthy v then py_str v else "" in
  match s with
  | EmptyString => None
  | _ => Some s
  end.

Definition to_dataset_row (r : FrameRow) : DatasetRow :=
  {| timestamp := field (col_timestamp r);
     track := field (col_track r);
     artist := field (col_artist r);
     album := field (col_album r);
     ms_played := field (col_ms_played r) |}.

(** The inner [score_row] of [find_relevant]. *)
Definition score_row (keywords : list string) (hay : string) : Z :=
  match hay with
  | EmptyString => 0
  | _ => fold_left (fun acc k => if PyStr.contains k hay then acc + 1 else acc) keywords 0
  end.

(** The match score in the specification's words: the number of keywords of
    the query that occur in the search string of the row. *)
Definition match_score (query hay : string) : Z :=
  Z.of_nat (length (List.filter (fun k => PyStr.contains k hay) (_extract_keywords query))).

(** The rows of the frame with a positive match score, each with its score,
    in frame order. *)
Definition positive_rows (d : DataFrame) (query : string) : list (FrameRow * Z) :=
  List.filter (fun rs : FrameRow * Z => 0 <? snd rs)
    (map (fun r => (r, match_score query (col_haystack r))) d).

(** A field of a [DatasetRow] is [None] or a string that is not empty. *)
Definition field_ok (o : option string) : Prop :=
  match o with
  | None => True
  | Some s => s <> ""
  end.

Definition row_ok (r : DatasetRow) : Prop :=
  field_ok (timestamp r) /\ field_ok (track r) /\ field_ok (artist r)
  /\ field_ok (album r) /\ field_ok (ms_played r).

(** The source of the dataset cannot be used: no path is configured, the
    path does not exist, or every encoding attempt fails. *)
Definition source_unusable (fs : FileSystem) (self : Service) : Prop :=
  match csv_path self with
  | None => True
  | Some p =>
      path_exists fs p = false
      \/ forall enc, In enc try_encodings -> read_normalized fs p enc = None
  end.

Section WithPandas.
Context {pandas : Pandas}.

(** The keyword-matching part of [find_relevant]. *)
Definition keyword_matches (d : DataFrame) (query : string) (max_results : Z)
    : list DatasetRow :=
  let keywords := _extract_keywords query in
  match keywords with
  | [] => []
  | _ =>
      let scores := map (fun r => score_row keywords (col_haystack r)) d in
      let mask := map (fun s => 0 <? s) scores in
      if negb (existsb (fun b : bool => b) mask) then []
      else
        let selected :=
          map snd (List.filter (fun bx : bool * (FrameRow * Z) => fst bx)
                          (combine mask (combine d scores))) in
        let top := head max_results (sort_values selected) in
        map (fun rs => to_dataset_row (fst rs)) top
  end.

(** The body of [find_relevant] once [df = self._df] is bound. *)
Definition search (d : DataFrame) (query : string) (max_results : Z)
    : PyResult (list DatasetRow) :=
  if _is_music_related_query query then
    match _extract_keywords query with
    | [] =>
        let sample_size := Z.min max_results (Z.of_nat (length d)) in
        if sample_size <? 0
        then Raise (ValueError "A negative number of rows requested. Please provide `n` >= 0.")
        else Ok (map to_dataset_row (sample (Z.to_nat sample_size) d))
    | _ => Ok (keyword_matches d query max_results)
    end
  else Ok (keyword_matches d query max_results).

Definition find_relevant (fs : FileSystem) (self : Service) (query : string)
    (max_results : Z) : Service * PyResult (list DatasetRow) :=
  let self' :=
    if is_available fs self then self
    else if _loaded self then self
    else fst (load_dataset fs self) in
  match is_available fs self', _df self' with
  | true, Some d => (self', search d query max_results)
  | _, _ => (self', Ok [])
  end.

(** Truth value and [str] of an [Optional[str]] field. *)
Definition opt_truthy (o : option string) : bool :=
  match o with
  | Some s => negb (s =? "")%string
  | None => false
  end.

Definition opt_str (o : option string) : string :=
  match o with
  | Some s => s
  | None => "None"
  end.

(** [o or default] *)
Definition opt_or (o : option string) (default : string) : string :=
  if opt_truthy o then opt_str o else default.

Definition newline : string := String (ascii_of_nat 10) "".

Definition context_header : string := "Spotify listening history context (top matches):".

(** [lst.append(x)] *)
Definition append (lst : list string) (x : string) : list string := (lst ++ [x])%list.

(** One pass of the [for r in matches] loop of [get_relevant_context]: the
    line appended for [r]. *)
Definition context_line (r : DatasetRow) : string :=
  let parts : list string := [] in
  let parts := if opt_truthy (timestamp r) then append parts (opt_str (timestamp r)) else parts in
  let title := opt_or (track r) "Unknown Track" in
  let artist_ := opt_or (artist r) "Unknown Artist" in
  let parts := append parts ("'" ++ title ++ "' by " ++ artist_) in
  let parts := if opt_truthy (album r) then append parts ("album: " ++ opt_str (album r)) else parts in
  let parts := if opt_truthy (ms_played r) then append parts ("played_ms: " ++ opt_str (ms_played r)) else parts in
  " - " ++ PyStr.join " | " parts.

Definition context_lines (matches : list DatasetRow) : list string :=
  fold_left (fun lines r => append lines (context_line r)) matches [context_header].

(** The segments of a line, read off the loop body: a segment with a label
    is present exactly when its field is not empty, and the subject segment
    is always present, a missing track or artist replaced by a placeholder. *)
Definition optional_segment (label : string) (o : option string) : list string :=
  if opt_truthy o then [label ++ opt_str o] else [].

Definition subject_segment (r : DatasetRow) : string :=
  "'" ++ opt_or (track r) "Unknown Track" ++ "' by " ++ opt_or (artist r) "Unknown Artist".

Definition line_segments (r : DatasetRow) : list string :=
  (optional_segment "" (timestamp r) ++ [subject_segment r]
   ++ optional_segment "album: " (album r)
   ++ optional_segment "played_ms: " (ms_played r))%list.

Definition formatted_line (r : DatasetRow) : string :=
  " - " ++ PyStr.join " | " (line_segments r).

(** The line after the specification's words, where every empty field is
    left out, the track and the artist included. *)
Definition spec_subject_segment (r : DatasetRow) : list string :=
  match opt_truthy (track r), opt_truthy (artist r) with
  | true, true => ["'" ++ opt_str (track r) ++ "' by " ++ opt_str (artist r)]
  | true, false => ["'" ++ opt_str (track r) ++ "'"]
  | false, true => ["by " ++ opt_str (artist r)]
  | false, false => []
  end.

Definition spec_line_segments (r : DatasetRow) : list string :=
  (optional_segment "" (timestamp r) ++ spec_subject_segment r
   ++ optional_segment "album: " (album r)
   ++ optional_segment "played_ms: " (ms_played r))%list.

Definition spec_context_block (matches : list DatasetRow) : string :=
  PyStr.join newline
    (context_header :: map (fun r => " - " ++ PyStr.join " | " (spec_line_segments r)) matches).

(** The last three statements of [get_relevant_context]. *)
Definition truncate (context : string) (char_limit : Z) : string :=
  if char_limit <? Z.of_nat (String.length context)
  then PyStr.slice_to context (char_limit - 3) ++ "..."
  else context.

(** [get_relevant_context]; [find_relevant] is called with its default
    [max_results = 12]. *)
Definition get_relevant_context (fs : FileSystem) (self : Service) (query : string)
    (char_limit : Z) : Service * PyResult (option string) :=
  let '(self', r) := find_relevant fs self query 12 in
  match r with
  | Raise e => (self', Raise e)
  | Ok [] => (self', Ok None)
  | Ok matches =>
      (self', Ok (Some (truncate (PyStr.join newline (context_lines matches)) char_limit)))
  end.


End WithPandas.

(** *** Two implementations of the pandas interface

    Both sort by insertion.  [insert_before_ties] puts a row in front of the
    rows of equal score that follow it in the frame, so equal scores keep
    the frame's order; [insert_after_ties] puts it behind them. *)

Fixpoint insert_before_ties (x : FrameRow * Z) (l : list (FrameRow * Z))
    : list (FrameRow * Z) :=
  match l with
  | [] => [x]
  | y :: l' => if snd y <=? snd x then x :: y :: l' else y :: insert_before_ties x l'
  end.


Definition stable_sort_desc (l : list (FrameRow * Z)) : list (FrameRow * Z) :=
  fold_right insert_before_ties [] l.


(** A fixed-seed sampler for the examples: the first [n] rows. *)
Definition first_rows (n : nat) (d : DataFrame) : DataFrame := take n d.

(** The claim's reading of the keyword branch, after the specification's
    words: score, drop the rows of score 0, sort by score descending with
    ties in row order, keep the first [max_results]. *)
Definition spec_find_relevant (d : DataFrame) (query : string) (max_results : Z)
    : list DatasetRow :=
  let keywords := _extract_keywords query in
  let scored := map (fun r => (r, score_row keywords (col_haystack r))) d in
  let positive := List.filter (fun rs : FrameRow * Z => 0 <? snd rs) scored in
  map (fun rs => to_dataset_row (fst rs)) (head max_results (stable_sort_desc positive)).

End Dataset.

(** ** config/ollama_config.py and services/ollama_service.py *)

Module Ollama.

(** A decoded JSON value, i.e. what [response.json()] returns. *)
#[warnings="-register-all"]
Inductive Json :=
| JNull
| JBool (b : bool)
| JNum (q : Q)
| JStr (s : string)
| JArr (items : list Json)
| JObj (members : list (string * Json)).

(** [bool(v)] *)
Definition truthy (v : Json) : bool :=
  match v with
  | JNull => false
  | JBool b => b
  | JNum q => negb (Qeq_bool q 0)
  | JStr s => negb (s =? "")%string
  | JArr items => match items with [] => false | _ => true end
  | JObj members => match members with [] => false | _ => true end
  end.

(** [d.get(key)] on a dict. *)
Fixpoint dict_get (key : string) (members : list (string * Json)) : option Json :=
  match members with
  | [] => None
  | (k, v) :: rest => if (k =? key)%string then Some v else dict_get key rest
  end.

(** [d[key] = v] on a dict. *)
Fixpoint dict_set (key : string) (v : Json) (members : list (string * Json))
    : list (string * Json) :=
  match members with
  | [] => [(key, v)]
  | (k, w) :: rest =>
      if (k =? key)%string then (k, v) :: rest else (k, w) :: dict_set key v rest
  end.

(** [s == v] for a string [s]. *)
Definition str_eq (s : string) (v : Json) : bool :=
  match v with
  | JStr t => (s =? t)%string
  | _ => false
  end.

(** [key in v] *)
Definition py_in (key : string) (v : Json) : PyResult bool :=
  match v with
  | JObj members => Ok (match dict_get key members with Some _ => true | None => false end)
  | JArr items => Ok (existsb (str_eq key) items)
  | JStr s => Ok (PyStr.contains key s)
  | _ => Raise (TypeError "argument is not iterable")
  end.

(** [v[key]] for a string key. *)
Definition subscript (v : Json) (key : string) : PyResult Json :=
  match v with
  | JObj members =>
      match dict_get key members with
      | Some x => Ok x
      | None => Raise (KeyError key)
      end
  | JArr _ => Raise (TypeError "list indices must be integers or slices, not str")
  | JStr _ => Raise (TypeError "string indices must be integers, not 'str'")
  | _ => Raise (TypeError "object is not subscriptable")
  end.

Record Config := mkConfig {
  base_url : string;
  default_model : string;
  available_models : list string;
  temperature : Q;
  top_p : Q;
  top_k : Z;
  repeat_penalty : Q;
  max_tokens : Z;
  system_prompt : string;
  timeout : Z;
  request_timeout : Z;
  connection_error_message : string;
  general_error_message : string;
  model_info : list (string * Json)
}.

Definition info_entry (description parameters : string) (recommended : bool) : Json :=
  JObj [("description", JStr description); ("parameters", JStr parameters);
        ("recommended", JBool recommended)].

Definition OLLAMA_CONFIG : Config :=
  {| base_url := "http://localhost:11434";
     default_model := "llama3.2:3b";
     available_models :=
       [ "llama3.2"; "llama3.2:3b"; "llama3.2:7b"; "llama3.2:13b"; "llama3.2:70b";
         "mistral"; "mistral:7b"; "mistral:instruct";
         "codellama"; "codellama:7b"; "codellama:13b"; "codellama:34b";
         "qwen2"; "qwen2:0.5b"; "qwen2:1.5b"; "qwen2:7b"; "qwen2:72b";
         "phi3"; "phi3:mini"; "phi3:medium"; "phi3:large";
         "gemma2"; "gemma2:2b"; "gemma2:9b"; "neural-chat"; "orca-mini";
         "llama2"; "llama2:7b"; "llama2:13b"; "llama2:70b" ];
     temperature := 0.7;
     top_p := 0.9;
     top_k := 40;
     repeat_penalty := 1.1;
     max_tokens := 2048;
     system_prompt := "You are a helpful AI assistant. You provide clear, accurate, and helpful responses to user questions. 
    You are running locally on Ollama and can help with various tasks including:
    - Answering questions
    - Writing and editing text
    - Code generation and debugging
    - Analysis and explanations
    - Creative writing
    - Problem solving
    
    Always be helpful, accurate, and friendly in your responses.";
     timeout := 120;
     request_timeout := 60;
     connection_error_message :=
       "Unable to connect to Ollama. Please ensure Ollama is running locally.";
     general_error_message :=
       "I apologize, but I encountered an error while processing your request.";
     model_info :=
       [ ("llama3.2", info_entry "Meta's latest Llama model with improved performance" "3B-70B" true);
         ("mistral", info_entry "Mistral AI's powerful open model" "7B" true);
         ("codellama", info_entry "Specialized model for code generation" "7B-34B" true);
         ("qwen2", info_entry "Alibaba's Qwen2 model series" "0.5B-72B" true);
         ("phi3", info_entry "Microsoft's Phi-3 model family" "Mini-Large" true);
         ("gemma2", info_entry "Google's Gemma2 model" "2B-9B" true) ] |}.

(** The environment variables [get_ollama_config] reads; [OLLAMA_TIMEOUT] is
    taken as already parsed by [int]. *)
Record Environ := mkEnviron {
  OLLAMA_BASE_URL : option string;
  OLLAMA_DEFAULT_MODEL : option string;
  OLLAMA_TIMEOUT : option Z
}.

Definition getenv_truthy (v : option string) : option string :=
  match v with
  | Some EmptyString => None
  | _ => v
  end.

Definition get_ollama_config (env : Environ) : Config :=
  let config := OLLAMA_CONFIG in
  let config :=
    match getenv_truthy (OLLAMA_BASE_URL env) with
    | Some u =>
        mkConfig u (default_model config) (available_models config) (temperature config)
          (top_p config) (top_k config) (repeat_penalty config) (max_tokens config)
          (system_prompt config) (timeout config) (request_timeout config)
          (connection_error_message config) (general_error_message config) (model_info config)
    | None => config
    end in
  let config :=
    match getenv_truthy (OLLAMA_DEFAULT_MODEL env) with
    | Some m =>
        mkConfig (base_url config) m (available_models config) (temperature config)
          (top_p config) (top_k config) (repeat_penalty config) (max_tokens config)
          (system_prompt config) (timeout config) (request_timeout config)
          (connection_error_message config) (general_error_message config) (model_info config)
    | None => config
    end in
  match OLLAMA_TIMEOUT env with
  | Some t =>
      mkConfig (base_url config) (default_model config) (available_models config)
        (temperature config) (top_p config) (top_k config) (repeat_penalty config)
        (max_tokens config) (system_prompt config) t (request_timeout config)
        (connection_error_message config) (general_error_message config) (model_info config)
  | None => config
  end.

(** [validate_model], applied to whatever value the backend gave as a name. *)
Definition validate_model (model_name : Json) : bool :=
  match model_name with
  | JStr s => PyStr.mem s (available_models OLLAMA_CONFIG)
  | _ => false
  end.

Definition custom_model_info : Json := info_entry "Custom model" "Unknown" false.

(** [get_model_info]: a list or a dict cannot be a dictionary key. *)
Definition get_model_info (model_name : Json) : PyResult Json :=
  match model_name with
  | JArr _ | JObj _ => Raise (TypeError "unhashable type")
  | JStr s =>
      Ok (match dict_get s (model_info OLLAMA_CONFIG) with
          | Some i => i
          | None => custom_model_info
          end)
  | _ => Ok custom_model_info
  end.

(** *** The backend and the requests sent to it *)

Record Options := mkOptions {
  opt_temperature : Q;
  opt_top_p : Q;
  opt_top_k : Z;
  opt_repeat_penalty : Q;
  num_predict : Z
}.

Record Payload := mkPayload {
  model : Json;
  messages : list (string * string);
  stream : bool;
  options : Options
}.

Inductive Method := GET | POST.

Record Request := mkRequest {
  endpoint : string;
  method : Method;
  data : option Payload
}.

(** What comes back for a request: a body that decodes as JSON, a body of
    lines for a streamed chat (a line that is not JSON is [None]), or one of
    the failures [_make_request] tells apart. *)
Inductive Reply :=
| Body (j : Json)
| Lines (ls : list (option Json))
| ConnectionFailed
| TimedOut
| RequestFailed (msg : string).

Definition Backend := Request -> Reply.

(** Computations that talk to the backend: the requests sent so far are
    threaded through, and the outcome is a value or an exception. *)
Definition Io (A : Type) : Type := list Request -> PyResult A * list Request.

Definition ret {A : Type} (a : A) : Io A := fun log => (Ok a, log).

Definition throw {A : Type} (e : PyExc) : Io A := fun log => (Raise e, log).

Definition bind {A B : Type} (m : Io A) (k : A -> Io B) : Io B :=
  fun log =>
    match m log with
    | (Ok a, log') => k a log'
    | (Raise e, log') => (Raise e, log')
    end.

(** [try: m  except Exception as e: handler e] *)
Definition try_except {A : Type} (m : Io A) (handler : PyExc -> Io A) : Io A :=
  fun log =>
    match m log with
    | (Ok a, log') => (Ok a, log')
    | (Raise e, log') => handler e log'
    end.

Definition lift {A : Type} (r : PyResult A) : Io A := fun log => (r, log).

Notation "'do' x <- m ; k" := (bind m (fun x => k))
  (at level 10, x name, m at level 100, k at level 200).

(** *** OllamaService *)

Definition _make_request (backend : Backend) (endpoint : string) (method : Method)
    (data : option Payload) : Io Json :=
  fun log =>
    let req := mkRequest endpoint method data in
    (match backend req with
     | Body j => Ok j
     | Lines _ => Raise (Exception "Request failed: Extra data")
     | ConnectionFailed =>
         Raise (ConnectionError "Unable to connect to Ollama. Please ensure Ollama is running.")
     | TimedOut => Raise (TimeoutError "Request timed out")
     | RequestFailed msg => Raise (Exception ("Request failed: " ++ msg))
     end, (log ++ [req])%list).

Definition check_server_health (backend : Backend) : Io bool :=
  try_except
    (do response <- _make_request backend "/api/tags" GET None; ret true)
    (fun e => ret false).

(** The [for model in models] loop of [get_available_models] over a list. *)
Fixpoint annotate_models (models : list Json) : PyResult (list Json) :=
  match models with
  | [] => Ok []
  | JObj members :: rest =>
      let model_name :=
        match dict_get "name" members with Some n => n | None => JStr "" end in
      match get_model_info model_name with
      | Raise e => Raise e
      | Ok info =>
          let members := dict_set "info" info members in
          let members := dict_set "valid" (JBool (validate_model model_name)) members in
          match annotate_models rest with
          | Ok rest' => Ok (JObj members :: rest')
          | Raise e => Raise e
          end
      end
  | _ :: _ => Raise (AttributeError "object has no attribute 'get'")
  end.

(** The same loop over whatever value sits under ["models"]; what is
    returned is the sequence of its elements. *)
Definition iterate_models (models : Json) : PyResult (list Json) :=
  match models with
  | JArr items => annotate_models items
  | JObj [] => Ok []
  | JObj _ => Raise (AttributeError "'str' object has no attribute 'get'")
  | JStr EmptyString => Ok []
  | JStr _ => Raise (AttributeError "'str' object has no attribute 'get'")
  | _ => Raise (TypeError "object is not iterable")
  end.

Definition get_available_models (backend : Backend) : Io (list Json) :=
  try_except
    (do response <- _make_request backend "/api/tags" GET None;
     match response with
     | JObj members =>
         lift (iterate_models
                 (match dict_get "models" members with Some m => m | None => JArr [] end))
     | _ => throw (AttributeError "object has no attribute 'get'")
     end)
    (fun e => ret []).

Definition _generate_single_response (backend : Backend) (config : Config)
    (payload : Payload) : Io Json :=
  try_except
    (do response <- _make_request backend "/api/chat" POST (Some payload);
     do has_message <- lift (py_in "message" response);
     if has_message : bool
     then (do message <- lift (subscript response "message");
           lift (subscript message "content"))
     else ret (JStr (general_error_message config)))
    (fun e => ret (JStr (general_error_message config))).

(** The [for line in response.iter_lines()] loop of
    [_generate_streaming_response]. *)
Fixpoint read_lines (ls : list (option Json)) (full_response : string) : PyResult string :=
  match ls with
  | [] => Ok full_response
  | None :: rest => read_lines rest full_response
  | Some data :: rest =>
      match py_in "message" data with
      | Raise e => Raise e
      | Ok false => read_lines rest full_response
      | Ok true =>
          match subscript data "message" with
          | Raise e => Raise e
          | Ok message =>
              match subscript message "content" with
              | Raise e => Raise e
              | Ok (JStr content) => read_lines rest (full_response ++ content)
              | Ok _ => Raise (TypeError "can only concatenate str to str")
              end
          end
      end
  end.

(** The streamed call posts directly; a reply that is a failure for
    [_make_request] is taken as a failure here as well. *)
Definition _generate_streaming_response (backend : Backend) (config : Config)
    (payload : Payload) : Io Json :=
  try_except
    (fun log =>
       let req := mkRequest "/api/chat" POST (Some payload) in
       (match backend req with
        | Lines ls =>
            match read_lines ls "" with Ok s => Ok (JStr s) | Raise e => Raise e end
        | Body j =>
            match read_lines [Some j] "" with Ok s => Ok (JStr s) | Raise e => Raise e end
        | ConnectionFailed => Raise (ConnectionError "connection failed")
        | TimedOut => Raise (TimeoutError "timed out")
        | RequestFailed msg => Raise (Exception msg)
        end, (log ++ [req])%list))
    (fun e => ret (JStr (general_error_message config))).

(** [if not model: model = self.config["default_model"]] *)
Definition model_or_default (config : Config) (model : option Json) : Json :=
  match model with
  | Some m => if truthy m then m else JStr (default_model config)
  | None => JStr (default_model config)
  end.

(** The request body [generate_response] builds, defaults filled in. *)
Definition chat_payload (config : Config) (message : string) (model : option Json)
    (system_prompt : option string) (temperature : option Q) (max_tokens : option Z)
    (stream : bool) : Payload :=
  let model := model_or_default config model in
  let system_prompt :=
    match system_prompt with
    | Some EmptyString | None => Ollama.system_prompt config
    | Some s => s
    end in
  let temperature :=
    match temperature with Some t => t | None => Ollama.temperature config end in
  let max_tokens :=
    match max_tokens with Some n => n | None => Ollama.max_tokens config end in
  {| model := model;
     messages := [("system", system_prompt); ("user", message)];
     stream := stream;
     options := {| opt_temperature := temperature;
                   opt_top_p := top_p config;
                   opt_top_k := top_k config;
                   opt_repeat_penalty := repeat_penalty config;
                   num_predict := max_tokens |} |}.

Definition generate_response (backend : Backend) (config : Config) (message : string)
    (model : option Json) (system_prompt : option string) (temperature : option Q)
    (max_tokens : option Z) (stream : bool) : Io Json :=
  let payload :=
    chat_payload config message model system_prompt temperature max_tokens stream in
  try_except
    (if stream then _generate_streaming_response backend config payload
     else _generate_single_response backend config payload)
    (fun e => ret (JStr (general_error_message config))).

(** *** What the backend's replies amount to *)

Definition tags_request : Request := mkRequest "/api/tags" GET None.

Definition chat_request (payload : Payload) : Request :=
  mkRequest "/api/chat" POST (Some payload).

(** The backend answers the liveness probe. *)
Definition healthy (backend : Backend) : bool :=
  match backend tags_request with
  | Body _ => true
  | _ => false
  end.

(** The installed models the backend reports, empty when the listing fails. *)
Definition available (backend : Backend) : list Json :=
  match backend tags_request with
  | Body (JObj members) =>
      match iterate_models
              (match dict_get "models" members with Some m => m | None => JArr [] end) with
      | Ok models => models
      | Raise _ => []
      end
  | _ => []
  end.

(** The assistant content of a reply: present when the reply is a JSON
    object whose ["message"] is an object with a ["content"]. *)
Definition reply_content (r : Reply) : option Json :=
  match r with
  | Body (JObj members) =>
      match dict_get "message" members with
      | Some (JObj message) => dict_get "content" message
      | _ => None
      end
  | _ => None
  end.

(** *** Generation with a conversation history *)

(** The request body [generate_with_context] builds; an entry of the history
    is a role and a content, as a message of the payload is. *)
Definition context_payload (config : Config) (message : string)
    (conversation_history : list (string * string)) (model : option Json)
    (system_prompt : option string) : Payload :=
  let model := model_or_default config model in
  let system_prompt :=
    match system_prompt with
    | Some EmptyString | None => Ollama.system_prompt config
    | Some s => s
    end in
  let messages := [("system", system_prompt)] in
  let messages := (messages ++ conversation_history)%list in
  let messages := (messages ++ [("user", message)])%list in
  {| model := model;
     messages := messages;
     stream := false;
     options := {| opt_temperature := temperature config;
                   opt_top_p := top_p config;
                   opt_top_k := top_k config;
                   opt_repeat_penalty := repeat_penalty config;
                   num_predict := max_tokens config |} |}.

Definition generate_with_context (backend : Backend) (config : Config) (message : string)
    (conversation_history : list (string * string)) (model : option Json)
    (system_prompt : option string) : Io Json :=
  let payload := context_payload config message conversation_history model system_prompt in
  try_except
    (do response <- _make_request backend "/api/chat" POST (Some payload);
     do has_message <- lift (py_in "message" response);
     if has_message : bool
     then (do message <- lift (subscript response "message");
           lift (subscript message "content"))
     else ret (JStr (general_error_message config)))
    (fun e => ret (JStr (general_error_message config))).



(** [OllamaService.get_server_info] *)
Definition get_server_info (backend : Backend) : Io Json :=
  try_except (_make_request backend "/api/version" GET None) (fun e => ret (JObj [])).

Definition version_request : Request := mkRequest "/api/version" GET None.

(** What the backend reports about itself, the empty object when the request
    fails. *)
Definition server_info_of (backend : Backend) : Json :=
  match backend version_request with
  | Body j => j
  | _ => JObj []
  end.

End Ollama.

(** ** api/v1/endpoints/chat.py *)

Module Chat.
Import Ollama.

(** [HTTPException(status_code, detail)], the error outcome of an endpoint. *)
Inductive Outcome (A : Type) :=
| Returned (a : A)
| HTTPException (status_code : Z) (detail : string).
Arguments Returned {A} a.
Arguments HTTPException {A} status_code detail.

Record Agent := mkAgent {
  agent_name : string;
  personality : string;
  feedback_style : string;
  agent_system_prompt : string
}.

Record ChatMessage := mkChatMessage {
  id : Z;
  user_id : Z;
  agent_id : option Z;
  message : string;
  response : Json;
  context_used : option string;
  created_at : Z
}.

(** The request body [ChatMessageWithAgentCreate]. *)
Record MessageData := mkMessageData {
  md_user_id : Z;
  md_message : string;
  md_response : option string;
  md_agent_id : option Z
}.

(** The relational store as the CRUD layer reaches it through a SQLAlchemy
    session; each query may fail. *)
Record Session := mkSession {
  first_user : Z -> PyResult (option Z);
  first_agent : Z -> PyResult (option Agent);
  add_commit_refresh :
    Z -> option Z -> string -> Json -> option string -> PyResult ChatMessage
}.

(** [UserCRUD.get_user_by_id] *)
Definition get_user_by_id (db : Session) (uid : Z) : option Z :=
  match first_user db uid with
  | Ok u => u
  | Raise _ => None
  end.

(** [AgentCRUD.get_agent_by_id] *)
Definition get_agent_by_id (db : Session) (aid : Z) : PyResult (option Agent) :=
  first_agent db aid.

(** [ChatCRUD.create_chat_message_with_agent]: the exception is raised again
    after the rollback. *)
Definition create_chat_message_with_agent (db : Session) (uid : Z) (aid : option Z)
    (msg : string) (resp : Json) (ctx : option string) : PyResult ChatMessage :=
  add_commit_refresh db uid aid msg resp ctx.

Definition nl : string := Dataset.newline.

Definition agent_prompt (agent : Agent) : string :=
  "You are " ++ agent_name agent ++ ", an AI assistant with the following characteristics:"
  ++ nl ++ nl
  ++ "Personality: " ++ personality agent ++ nl
  ++ "Feedback Style: " ++ feedback_style agent ++ nl ++ nl
  ++ agent_system_prompt agent ++ nl ++ nl
  ++ "Always respond in character as " ++ agent_name agent
  ++ " with the specified personality and feedback style.".

Definition guidance (dataset_context : string) : string :=
  nl ++ nl
  ++ "When answering, prioritize and reference the following dataset context if it is relevant to the user's question. "
  ++ "If it is not relevant, answer normally. Do not fabricate entries."
  ++ nl ++ nl ++ dataset_context.

Definition no_models_message : string :=
  "No models are available in Ollama. Please install a model first.".

(** [model.get('name', '')] for an element of the installed-model list. *)
Definition name_of (m : Json) : Json :=
  match m with
  | JObj members => match dict_get "name" members with Some n => n | None => JStr "" end
  | _ => JStr ""
  end.

(** The choice of model in [generate_ollama_response_with_context]: [None]
    when no model is installed, else the configured default if it is among
    the installed names, else the first installed name. *)
Definition select_model (config : Config) (model_names : list Json) : option Json :=
  let default_model := JStr (Ollama.default_model config) in
  match model_names with
  | [] => None
  | first :: _ =>
      if negb (existsb (str_eq (Ollama.default_model config)) model_names)
      then Some first
      else Some default_model
  end.

(** The system prompt: the agent block or the default prompt, then, when
    there is a dataset context, the guidance and the context. *)
Definition compose_prompt (config : Config) (agent : option Agent)
    (dataset_context : option string) : string :=
  let system_prompt :=
    match agent with
    | Some a => agent_prompt a
    | None => Ollama.system_prompt config
    end in
  match dataset_context with
  | Some EmptyString | None => system_prompt
  | Some c => system_prompt ++ guidance c
  end.

(** The process environment is fixed while the server runs, so the
    configuration read here is the one the service was built with. *)
Definition generate_ollama_response_with_context (backend : Backend) (config : Config)
    (user_message : string) (agent : option Agent) (dataset_context : option string)
    : Io Json :=
  try_except
    (do healthy <- check_server_health backend;
     if negb healthy then ret (JStr (connection_error_message config))
     else
       do available_models <- get_available_models backend;
       let model_names := map name_of available_models in
       match select_model config model_names with
       | None => ret (JStr no_models_message)
       | Some default_model =>
           let system_prompt := compose_prompt config agent dataset_context in
           generate_response backend config user_message (Some default_model)
             (Some system_prompt) (Some (Ollama.temperature config))
             (Some (Ollama.max_tokens config)) false
       end)
    (fun e => ret (JStr ("Error: " ++ exc_str e))).


(** The names the local table [model_info] has an entry for. *)
Definition described_models : list string :=
  ["llama3.2"; "mistral"; "codellama"; "qwen2"; "phi3"; "gemma2"].

(** The block the system prompt starts with. *)
Definition base_prompt (config : Config) (agent : option Agent) : string :=
  match agent with
  | Some a => agent_prompt a
  | None => Ollama.system_prompt config
  end.

(** What [get_available_models] guarantees of a model it returns. *)
Definition annotated (m : Json) : Prop :=
  exists members info,
    m = JObj members
    /\ get_model_info (name_of m) = Ok info
    /\ dict_get "info" members = Some info
    /\ dict_get "valid" members = Some (JBool (validate_model (name_of m))).

(** The steps of [send_message] after the user has been found. *)
Section SendMessage.
Context {pandas : Dataset.Pandas}.
Variables (db : Session) (fs : Dataset.FileSystem) (backend : Backend) (config : Config).

(** The agent block: the agent, if one is named, and the first context part. *)
Definition load_agent (message_data : MessageData)
    : PyResult (Outcome (option Agent * list string)) :=
  match md_agent_id message_data with
  | None => Ok (Returned (None, []))
  | Some aid =>
      if aid =? 0 then Ok (Returned (None, []))
      else
        match get_agent_by_id db aid with
        | Raise e => Raise e
        | Ok None => Ok (HTTPException 404 "Agent not found")
        | Ok (Some agent) =>
            Ok (Returned
                  (Some agent,
                   ["Agent: " ++ agent_name agent ++ " | Personality: " ++ personality agent
                    ++ " | Style: " ++ feedback_style agent]))
        end
  end.

(** The best-effort dataset block: the context and the part stored with the
    message. *)
Definition load_dataset_context (svc : Dataset.Service) (message_data : MessageData)
    : Dataset.Service * option string * list string :=
  match Dataset.get_relevant_context fs svc (md_message message_data) 1500 with
  | (svc', Ok (Some dataset_context)) =>
      match dataset_context with
      | EmptyString => (svc', Some dataset_context, [])
      | _ =>
          let preview := PyStr.join " | " (take 2 (PyStr.splitlines dataset_context)) in
          (svc', Some dataset_context, ["Dataset: " ++ preview])
      end
  | (svc', Ok None) => (svc', None, [])
  | (svc', Raise _) => (svc', None, [])
  end.

Definition send_message (svc : Dataset.Service) (message_data : MessageData)
    (log : list Request) : Dataset.Service * Outcome ChatMessage * list Request :=
  let internal (e : PyExc) := HTTPException 500 ("Internal server error: " ++ exc_str e) in
  match get_user_by_id db (md_user_id message_data) with
  | None => (svc, HTTPException 404 "User not found", log)
  | Some _ =>
      match load_agent message_data with
      | Raise e => (svc, internal e, log)
      | Ok (HTTPException code detail) => (svc, HTTPException code detail, log)
      | Ok (Returned (agent, agent_parts)) =>
          let '(svc', dataset_context, dataset_parts) :=
            load_dataset_context svc message_data in
          let context_parts := (agent_parts ++ dataset_parts)%list in
          let store (ai_response : Json) (log' : list Request) :=
            let context_used :=
              match context_parts with
              | [] => None
              | _ => Some (PyStr.join nl context_parts)
              end in
            match create_chat_message_with_agent db (md_user_id message_data)
                    (md_agent_id message_data) (md_message message_data)
                    ai_response context_used with
            | Ok db_message => (svc', Returned db_message, log')
            | Raise e => (svc', internal e, log')
            end in
          match md_response message_data with
          | Some (String c r) => store (JStr (String c r)) log
          | _ =>
              match check_server_health backend log with
              | (Ok true, log1) =>
                  match generate_ollama_response_with_context backend config
                          (md_message message_data) agent dataset_context log1 with
                  | (Ok ai_response, log2) => store ai_response log2
                  | (Raise e, log2) => (svc', internal e, log2)
                  end
              | (Ok false, log1) =>
                  (svc', HTTPException 503
                     "Ollama server is not available. Please ensure Ollama is running locally.",
                   log1)
              | (Raise e, log1) => (svc', internal e, log1)
              end
          end
      end
  end.

End SendMessage.

End Chat.

(** ** crud/chat.py and api/v1/endpoints/users.py *)

Module Users.

(** A row of [chat_messages], as far as the cache reads it; [created_at] is
    a POSIX timestamp. *)
Record ChatMessage := mkChatMessage {
  id : Z;
  user_id : Z;
  message : string;
  response : string;
  created_at : Z
}.

(** The session as [ChatCRUD.get_user_messages] queries it: the messages of
    a user, newest first, after [skip] and up to [limit]. *)
Record Session := mkSession {
  recent_messages : Z -> Z -> Z -> PyResult (list ChatMessage)
}.

(** The methods class [ChatCRUD] defines. *)
Inductive ChatCRUDMethod :=
| create_chat_message
| create_chat_message_with_agent
| get_user_messages
| get_chat_message_by_id
| delete_chat_message
| delete_all_user_messages
| get_chat_statistics.

Definition method_name (m : ChatCRUDMethod) : string :=
  match m with
  | create_chat_message => "create_chat_message"
  | create_chat_message_with_agent => "create_chat_message_with_agent"
  | get_user_messages => "get_user_messages"
  | get_chat_message_by_id => "get_chat_message_by_id"
  | delete_chat_message => "delete_chat_message"
  | delete_all_user_messages => "delete_all_user_messages"
  | get_chat_statistics => "get_chat_statistics"
  end.

Definition ChatCRUD_methods : list ChatCRUDMethod :=
  [ create_chat_message; create_chat_message_with_agent; get_user_messages;
    get_chat_message_by_id; delete_chat_message; delete_all_user_messages;
    get_chat_statistics ].

(** [ChatCRUD.<name>]: attribute lookup on the class. *)
Definition ChatCRUD_getattr (name : string) : PyResult ChatCRUDMethod :=
  match find (fun m => (method_name m =? name)%string) ChatCRUD_methods with
  | Some m => Ok m
  | None => Raise (AttributeError ("type object 'ChatCRUD' has no attribute '" ++ name ++ "'"))
  end.

(** The call [method(db, user_id, skip=skip, limit=limit)]: only
    [get_user_messages] has these parameters; it returns [[]] when the query
    fails. *)
Definition call_with_skip_limit (m : ChatCRUDMethod) (db : Session) (uid skip limit : Z)
    : PyResult (list ChatMessage) :=
  match m with
  | get_user_messages =>
      match recent_messages db uid skip limit with
      | Ok messages => Ok messages
      | Raise _ => Ok []
      end
  | _ => Raise (TypeError (method_name m ++ "() got an unexpected keyword argument 'skip'"))
  end.

(** The pickled [message_data] dictionary. *)
Record CachedMessage := mkCachedMessage {
  c_id : Z;
  c_user_id : Z;
  c_message : string;
  c_response : string;
  c_created_at : Z
}.

Inductive RedisValue :=
| RString (payload : CachedMessage)
| RSortedSet (members : list (CachedMessage * Z)).

(** The Redis server: key to value and time to live in seconds.  [reachable]
    is whether a command gets through. *)
Record Redis := mkRedis {
  reachable : bool;
  keys : gmap string (RedisValue * option Z)
}.

Definition get_redis_key (uid : Z) (message_id : option Z) : string :=
  match message_id with
  | Some mid =>
      if mid =? 0 then "chat:user:" ++ PyStr.str_of_Z uid ++ ":messages"
      else "chat:user:" ++ PyStr.str_of_Z uid ++ ":message:" ++ PyStr.str_of_Z mid
  | None => "chat:user:" ++ PyStr.str_of_Z uid ++ ":messages"
  end.

Definition unreachable {A : Type} : PyResult A :=
  Raise (ConnectionError "Error connecting to Redis").

(** [SETEX key seconds value] *)
Definition setex (r : Redis) (key : string) (seconds : Z) (v : CachedMessage)
    : PyResult Redis :=
  if reachable r
  then Ok (mkRedis true (<[key := (RString v, Some seconds)]> (keys r)))
  else unreachable.

Definition same_member (a b : CachedMessage) : bool :=
  (c_id a =? c_id b) && (c_user_id a =? c_user_id b)
  && (c_message a =? c_message b)%string && (c_response a =? c_response b)%string
  && (c_created_at a =? c_created_at b).

(** [ZADD key score member]: a member already present gets the new score. *)
Definition zadd (r : Redis) (key : string) (member : CachedMessage) (score : Z)
    : PyResult Redis :=
  if reachable r then
    match keys r !! key with
    | None => Ok (mkRedis true (<[key := (RSortedSet [(member, score)], None)]> (keys r)))
    | Some (RSortedSet members, ttl) =>
        let others := List.filter (fun ms => negb (same_member (fst ms) member)) members in
        Ok (mkRedis true (<[key := (RSortedSet (others ++ [(member, score)]), ttl)]> (keys r)))
    | Some (RString _, _) =>
        Raise (Exception "WRONGTYPE Operation against a key holding the wrong kind of value")
    end
  else unreachable.

(** [EXPIRE key seconds] *)
Definition expire (r : Redis) (key : string) (seconds : Z) : PyResult Redis :=
  if reachable r then
    match keys r !! key with
    | Some (v, _) => Ok (mkRedis true (<[key := (v, Some seconds)]> (keys r)))
    | None => Ok r
    end
  else unreachable.

(** [cache_chat_message]; [redis_client] is [None] when the connection made
    at import time failed. *)
Definition cache_chat_message (redis_client : option Redis) (uid : Z)
    (message : ChatMessage) : option Redis * bool :=
  match redis_client with
  | None => (None, false)
  | Some r =>
      let message_key := get_redis_key uid (Some (id message)) in
      let message_data :=
        {| c_id := id message; c_user_id := user_id message;
           c_message := Users.message message; c_response := response message;
           c_created_at := created_at message |} in
      match setex r message_key 3600 message_data with
      | Raise _ => (Some r, false)
      | Ok r1 =>
          let sorted_set_key := get_redis_key uid None in
          match zadd r1 sorted_set_key message_data (created_at message) with
          | Raise _ => (Some r1, false)
          | Ok r2 =>
              match expire r2 sorted_set_key 3600 with
              | Raise _ => (Some r2, false)
              | Ok r3 => (Some r3, true)
              end
          end
      end
  end.

(** The values of the dictionary [cache_user_messages_on_login] returns. *)
Inductive Value :=
| VBool (b : bool)
| VInt (n : Z)
| VStr (s : string).

(** The [for message in messages] loop. *)
Fixpoint cache_each (redis_client : option Redis) (uid : Z) (messages : list ChatMessage)
    (cached_count : Z) : option Redis * Z :=
  match messages with
  | [] => (redis_client, cached_count)
  | message :: rest =>
      match cache_chat_message redis_client uid message with
      | (client', true) => cache_each client' uid rest (cached_count + 1)
      | (client', false) => cache_each client' uid rest cached_count
      end
  end.

(** [cache_user_messages_on_login], with the name of the [ChatCRUD] method it
    calls as a parameter; the source calls [get_chat_messages_by_user]. *)
Definition cache_user_messages_with (listing : string) (redis_client : option Redis)
    (uid : Z) (db : Session) : option Redis * gmap string Value :=
  match redis_client with
  | None =>
      (redis_client,
       <["reason" := VStr "Redis not available"]> (<["cached" := VBool false]> ∅))
  | Some _ =>
      let failed (e : PyExc) : gmap string Value :=
        <["reason" := VStr (exc_str e)]> (<["cached" := VBool false]> ∅) in
      match ChatCRUD_getattr listing with
      | Raise e => (redis_client, failed e)
      | Ok m =>
          match call_with_skip_limit m db uid 0 100 with
          | Raise e => (redis_client, failed e)
          | Ok [] =>
              (redis_client,
               <["reason" := VStr "No messages to cache"]>
                 (<["messages_count" := VInt 0]> (<["cached" := VBool true]> ∅)))
          | Ok messages =>
              let '(client', cached_count) := cache_each redis_client uid messages 0 in
              (client',
               <["cache_status" := VStr "warmed"]>
                 (<["total_messages" := VInt (Z.of_nat (length messages))]>
                    (<["messages_count" := VInt cached_count]>
                       (<["cached" := VBool true]> ∅))))
          end
      end
  end.

Definition cache_user_messages_on_login (redis_client : option Redis) (uid : Z)
    (db : Session) : option Redis * gmap string Value :=
  cache_user_messages_with "get_chat_messages_by_user" redis_client uid db.

(** The [message_data] dictionary [cache_chat_message] builds for a message. *)
Definition message_data_of (message : ChatMessage) : CachedMessage :=
  {| c_id := id message; c_user_id := user_id message;
     c_message := Users.message message; c_response := response message;
     c_created_at := created_at message |}.

(** The key holds a sorted set or nothing. *)
Definition sorted_set_or_free (r : Redis) (key : string) : Prop :=
  match keys r !! key with
  | Some (RString _, _) => False
  | _ => True
  end.

(** The members of the sorted set at [key], none when the key is free. *)
Definition members_at (r : Redis) (key : string) : list (CachedMessage * Z) :=
  match keys r !! key with
  | Some (RSortedSet members, _) => members
  | _ => []
  end.

(** The dictionary the warm-cache endpoint returns. *)
Record WarmCache := mkWarmCache {
  success : Value;
  warmed_user_id : Z;
  cache_info : gmap string Value;
  warm_message : string
}.

(** [warm_user_cache_on_demand]; [users] is the session as the user query
    reaches it and [db] the same session as the message query reaches it.  The
    subscript [cache_result["cached"]] raises [KeyError] on a dictionary
    without the key, which the handler turns into a 500. *)
Definition warm_user_cache_on_demand (redis_client : option Redis) (uid : Z)
    (users : Chat.Session) (db : Session) : option Redis * Chat.Outcome WarmCache :=
  match Chat.get_user_by_id users uid with
  | None => (redis_client, Chat.HTTPException 404 "User not found")
  | Some _ =>
      let '(client', cache_result) := cache_user_messages_on_login redis_client uid db in
      match cache_result !! "cached" with
      | Some cached =>
          (client',
           Chat.Returned
             {| success := cached; warmed_user_id := uid; cache_info := cache_result;
                warm_message := "Cache warming completed" |})
      | None => (client', Chat.HTTPException 500 "Internal server error")
      end
  end.

End Users.

(** ** crud/chat.py on the rows of [chat_messages] *)

Module ChatCRUD.

(** The database behind the session: [answers] is whether it executes a
    statement or raises; [chat_messages] are the rows of the table. *)
Record Db := mkDb {
  answers : bool;
  chat_messages : list Chat.ChatMessage
}.

Definition operational_error {A : Type} : PyResult A :=
  Raise (Exception "(OperationalError) database is not available").

(** [db.query(models.ChatMessage).filter(...)], executed. *)
Definition query (db : Db) (criterion : Chat.ChatMessage -> bool)
    : PyResult (list Chat.ChatMessage) :=
  if answers db then Ok (List.filter criterion (chat_messages db)) else operational_error.

(** [ChatMessage.id == message_id, ChatMessage.user_id == user_id] *)
Definition id_and_user (message_id user_id : Z) (m : Chat.ChatMessage) : bool :=
  (Chat.id m =? message_id) && (Chat.user_id m =? user_id).

(** [ChatMessage.user_id == user_id] *)
Definition of_user (user_id : Z) (m : Chat.ChatMessage) : bool :=
  Chat.user_id m =? user_id.

(** [.first()] *)
Definition first (rows : list Chat.ChatMessage) : option Chat.ChatMessage :=
  match rows with
  | [] => None
  | m :: _ => Some m
  end.

(** [.order_by(ChatMessage.created_at.asc()).first()] and, with [Z.gtb], the
    same for [desc()]: a row no other row comes before.  Which of several rows
    with the same [created_at] it is, is up to the database; here it is the
    first of them in the table. *)
Fixpoint order_by_first (before : Z -> Z -> bool) (rows : list Chat.ChatMessage)
    : option Chat.ChatMessage :=
  match rows with
  | [] => None
  | m :: rest =>
      match order_by_first before rest with
      | Some m' =>
          if before (Chat.created_at m') (Chat.created_at m) then Some m' else Some m
      | None => Some m
      end
  end.

(** [ChatCRUD.get_chat_message_by_id] *)
Definition get_chat_message_by_id (db : Db) (message_id user_id : Z)
    : option Chat.ChatMessage :=
  match query db (id_and_user message_id user_id) with
  | Ok rows => first rows
  | Raise _ => None
  end.

(** [ChatCRUD.delete_chat_message]: [db.delete(message)] deletes by primary
    key; an exception is raised again after the rollback. *)
Definition delete_chat_message (db : Db) (message_id user_id : Z) : Db * PyResult bool :=
  match query db (id_and_user message_id user_id) with
  | Raise e => (db, Raise e)
  | Ok rows =>
      match first rows with
      | None => (db, Ok false)
      | Some message =>
          (mkDb (answers db)
             (List.filter (fun m => negb (Chat.id m =? Chat.id message)) (chat_messages db)),
           Ok true)
      end
  end.

(** [ChatCRUD.delete_all_user_messages] *)
Definition delete_all_user_messages (db : Db) (user_id : Z) : Db * PyResult bool :=
  if answers db
  then (mkDb (answers db)
          (List.filter (fun m => negb (of_user user_id m)) (chat_messages db)),
        Ok true)
  else (db, operational_error).

(** The dictionary [get_chat_statistics] returns. *)
Record Statistics := mkStatistics {
  total_messages : Z;
  first_message_date : option Z;
  last_message_date : option Z
}.

Definition date_of (m : option Chat.ChatMessage) : option Z :=
  match m with
  | Some m => Some (Chat.created_at m)
  | None => None
  end.

(** [ChatCRUD.get_chat_statistics]: three queries; any exception gives the
    statistics of a user without messages. *)
Definition get_chat_statistics (db : Db) (user_id : Z) : Statistics :=
  let no_statistics := mkStatistics 0 None None in
  match query db (of_user user_id) with
  | Raise _ => no_statistics
  | Ok counted =>
      match query db (of_user user_id) with
      | Raise _ => no_statistics
      | Ok ascending =>
          match query db (of_user user_id) with
          | Raise _ => no_statistics
          | Ok descending =>
              mkStatistics (Z.of_nat (length counted))
                (date_of (order_by_first Z.ltb ascending))
                (date_of (order_by_first Z.gtb descending))
          end
      end
  end.

End ChatCRUD.

(** ** The message endpoints of api/v1/endpoints/chat.py *)

Module Messages.

(** [delete_message] *)
Definition delete_message (db : ChatCRUD.Db) (message_id user_id : Z)
    : ChatCRUD.Db * Chat.Outcome string :=
  match ChatCRUD.delete_chat_message db message_id user_id with
  | (db', Ok true) => (db', Chat.Returned "Message deleted successfully")
  | (db', Ok false) =>
      (db', Chat.HTTPException 404
              "Message not found or you don't have permission to delete it")
  | (db', Raise e) =>
      (db', Chat.HTTPException 500 ("Internal server error: " ++ exc_str e))
  end.

(** [delete_all_user_messages] *)
Definition delete_all_user_messages (db : ChatCRUD.Db) (user_id : Z)
    : ChatCRUD.Db * Chat.Outcome string :=
  match ChatCRUD.delete_all_user_messages db user_id with
  | (db', Ok _) => (db', Chat.Returned "All messages deleted successfully")
  | (db', Raise e) =>
      (db', Chat.HTTPException 500 ("Internal server error: " ++ exc_str e))
  end.

End Messages.

(** ** The probes of api/v1/endpoints/ollama.py *)

Module OllamaEndpoints.
Import Ollama.

(** The dictionary [check_ollama_health] returns. *)
Record Health := mkHealth {
  status : string;
  server_info : Json;
  health_base_url : string
}.

(** [check_ollama_health] *)
Definition check_ollama_health (backend : Backend) (config : Config)
    : Io (Chat.Outcome Health) :=
  try_except
    (do is_healthy <- check_server_health backend;
     do info <- Ollama.get_server_info backend;
     ret (Chat.Returned
            {| status := if is_healthy : bool then "healthy" else "unhealthy";
               server_info := info;
               health_base_url := base_url config |}))
    (fun e => ret (Chat.HTTPException 503 ("Ollama service unavailable: " ++ exc_str e))).

(** [get_available_models] *)
Definition get_available_models (backend : Backend) : Io (Chat.Outcome (list Json)) :=
  try_except
    (do models <- Ollama.get_available_models backend; ret (Chat.Returned models))
    (fun e => ret (Chat.HTTPException 500 ("Failed to get models: " ++ exc_str e))).

(** [get_server_info] *)
Definition get_server_info (backend : Backend) : Io (Chat.Outcome Json) :=
  try_except
    (do info <- Ollama.get_server_info backend; ret (Chat.Returned info))
    (fun e => ret (Chat.HTTPException 500 ("Failed to get server info: " ++ exc_str e))).

End OllamaEndpoints.

(** ** Sample data *)

Module Examples.
Import Dataset.

Definition row_x : FrameRow :=
  mkFrameRow (CStr "2024-01-01 10:00") (CStr "Song X") (CStr "Artist Y") (CStr "Album Z")
    (CInt 215000) "song x artist y album z".

Definition row_love_me_do : FrameRow :=
  mkFrameRow (CStr "2024-01-02 11:30") (CStr "Love Me Do") (CStr "The Beatles")
    (CStr "Please Please Me") (CInt 143000) "love me do the beatles please please me".

Definition row_love_story : FrameRow :=
  mkFrameRow (CStr "2024-01-03 09:15") (CStr "Love Story") (CStr "Taylor Swift")
    (CStr "Fearless") (CInt 0) "love story taylor swift fearless".

Definition row_hello : FrameRow :=
  mkFrameRow (CStr "2024-01-04 18:45") (CStr "Hello") (CStr "Adele") CNaN CNaN
    "hello adele nan".

(** A row of a file that has no track and no artist column. *)
Definition row_album_only : FrameRow :=
  mkFrameRow (CStr "2020") CNone CNone (CStr "Blue Train") CNone "blue train".

Definition frame : DataFrame := [row_x; row_love_me_do; row_love_story; row_hello].

Definition csv : string := "spotify_history.csv".

(** The file is there and reads as [frame] in every encoding. *)
Definition disk : FileSystem :=
  {| path_exists := fun p => (p =? csv)%string;
     read_normalized := fun p enc => if (p =? csv)%string then Some frame else None |}.

Definition album_disk : FileSystem :=
  {| path_exists := fun p => (p =? csv)%string;
     read_normalized := fun p enc => if (p =? csv)%string then Some [row_album_only] else None |}.

(** No file. *)
Definition empty_disk : FileSystem :=
  {| path_exists := fun p => false;
     read_normalized := fun p enc => None |}.


Definition fresh : Service := init None (Some csv).

Definition loaded : Service := fst (load_dataset disk fresh).

Definition album_loaded : Service := fst (load_dataset album_disk fresh).

(** Backends: [listing names content] reports the models [names] and answers
    every chat with [content]. *)
Definition model_entry (name : string) : Ollama.Json :=
  Ollama.JObj [("name", Ollama.JStr name)].

Definition listing (names : list string) (content : string) : Ollama.Backend :=
  fun req =>
    if (Ollama.endpoint req =? "/api/tags")%string
    then Ollama.Body
           (Ollama.JObj [("models", Ollama.JArr (map model_entry names))])
    else Ollama.Body
           (Ollama.JObj
              [("message",
                Ollama.JObj [("role", Ollama.JStr "assistant");
                             ("content", Ollama.JStr content)])]).

(** A configuration whose default model is [z]. *)
Definition config_z : Ollama.Config :=
  Ollama.get_ollama_config (Ollama.mkEnviron None (Some "z") None).

(** A store with user 1 and no agent, which gives every new message the id 7
    and the creation time 1700000000. *)
Definition store : Chat.Session :=
  {| Chat.first_user := fun uid => Ok (if uid =? 1 then Some uid else None);
     Chat.first_agent := fun aid => Ok None;
     Chat.add_commit_refresh := fun uid aid msg resp ctx =>
       Ok (Chat.mkChatMessage 7 uid aid msg resp ctx 1700000000) |}.

Definition hello : Chat.MessageData := Chat.mkMessageData 1 "hello there" None None.

(** Three rows of [chat_messages]: two of user 1, one of user 2. *)
Definition chat_rows : list Chat.ChatMessage :=
  [ Chat.mkChatMessage 7 1 None "hi" (Ollama.JStr "hello") None 1700000000;
    Chat.mkChatMessage 8 2 None "play" (Ollama.JStr "sure") None 1700000050;
    Chat.mkChatMessage 9 1 None "bye" (Ollama.JStr "goodbye") None 1700000100 ].

Definition chat_db : ChatCRUD.Db := ChatCRUD.mkDb true chat_rows.

End Examples.

(** * Properties *)

Import PyStr Dataset.

(** ** Strings *)

Lemma string_app_cons (x : ascii) (a b : string) : String x a ++ b = String x (a ++ b).
Proof. reflexivity. Qed.

Lemma string_app_nil_l (a : string) : "" ++ a = a.
Proof. reflexivity. Qed.

Lemma string_app_assoc (a b c : string) : (a ++ b) ++ c = a ++ b ++ c.
Proof.
  induction a as [|x a IH]; [reflexivity|].
  rewrite !string_app_cons. now f_equal.
Qed.

Lemma string_app_nil_r (a : string) : a ++ "" = a.
Proof.
  induction a as [|x a IH]; [reflexivity|].
  rewrite string_app_cons. now f_equal.
Qed.

Lemma string_length_app (a b : string) :
  String.length (a ++ b) = (String.length a + String.length b)%nat.
Proof.
  induction a as [|x a IH]; [reflexivity|].
  rewrite string_app_cons. simpl. now f_equal.
Qed.

Lemma prefix_iff (n h : string) : String.prefix n h = true <-> exists q, h = n ++ q.
Proof.
  revert h. induction n as [|a n IH]; intros h.
  - destruct h; simpl; split; eauto.
  - destruct h as [|b h]; simpl.
    + split; [discriminate | intros [q Hq]; discriminate].
    + destruct (ascii_dec a b) as [->|Hne].
      * rewrite IH. split; intros [q Hq]; exists q.
        -- rewrite string_app_cons. now f_equal.
        -- rewrite string_app_cons in Hq. now inversion Hq.
      * split; [discriminate | intros [q Hq]].
        rewrite string_app_cons in Hq. inversion Hq; congruence.
Qed.

Lemma contains_unfold (n h : string) :
  contains n h =
  if String.prefix n h then true
  else match h with EmptyString => false | String _ h' => contains n h' end.
Proof. destruct h; reflexivity. Qed.

Lemma contains_iff (n h : string) :
  contains n h = true <-> exists p q, h = p ++ n ++ q.
Proof.
  split.
  - induction h as [|c h IH]; rewrite contains_unfold.
    + destruct (String.prefix n "") eqn:E; [|discriminate].
      intros _. apply prefix_iff in E as [q Hq]. exists "", q. exact Hq.
    + destruct (String.prefix n (String c h)) eqn:E.
      * intros _. apply prefix_iff in E as [q Hq]. exists "", q. exact Hq.
      * intros Hc. destruct (IH Hc) as (p & q & ->). exists (String c p), q. reflexivity.
  - intros (p & q & ->). induction p as [|c p IH].
    + rewrite string_app_nil_l, contains_unfold.
      assert (E : String.prefix n (n ++ q) = true) by (apply prefix_iff; eauto).
      now rewrite E.
    + rewrite string_app_cons, contains_unfold, IH.
      now destruct (String.prefix n (String c (p ++ n ++ q))).
Qed.

Lemma prefix_before_separator (n q a b : string) (c : ascii) :
  all_word n = true -> is_word_char c = false ->
  n ++ q = a ++ String c b -> exists q', a = n ++ q'.
Proof.
  revert a. induction n as [|x n IH]; intros a Hn Hc E.
  - exists a. reflexivity.
  - simpl in Hn. apply andb_prop in Hn as [Hx Hn].
    destruct a as [|y a].
    + rewrite string_app_cons, string_app_nil_l in E. inversion E; congruence.
    + rewrite !string_app_cons in E. inversion E; subst.
      destruct (IH a Hn Hc) as [q' ->]; [assumption|].
      exists q'. reflexivity.
Qed.

Lemma contains_split (n a b : string) (c : ascii) :
  all_word n = true -> is_word_char c = false ->
  contains n (a ++ String c b) = true ->
  contains n a = true \/ contains n b = true.
Proof.
  intros Hn Hc H. apply contains_iff in H as (p & q & E).
  revert p E. induction a as [|y a IH]; intros p E.
  - rewrite string_app_nil_l in E. destruct p as [|z p].
    + rewrite string_app_nil_l in E.
      destruct (prefix_before_separator n q "" b c Hn Hc) as [q' Hq'];
        [now rewrite string_app_nil_l|].
      left. apply contains_iff. exists "", q'. exact Hq'.
    + rewrite string_app_cons in E. inversion E; subst.
      right. apply contains_iff. eauto.
  - destruct p as [|z p].
    + rewrite string_app_nil_l in E.
      destruct (prefix_before_separator n q (String y a) b c Hn Hc) as [q' Hq'];
        [now symmetry|].
      left. apply contains_iff. exists "", q'. exact Hq'.
    + rewrite !string_app_cons in E. inversion E; subst.
      destruct (IH p) as [Hl|Hr]; [assumption| |].
      * left. apply contains_iff in Hl as (p' & q' & ->).
        apply contains_iff. exists (String z p'), q'. reflexivity.
      * now right.
Qed.

Lemma contains_nonempty (n h : string) :
  n <> "" -> contains n h = true -> h <> "".
Proof.
  intros Hn H ->. apply contains_iff in H as (p & q & E).
  destruct p; [destruct n; [congruence | discriminate] | discriminate].
Qed.

Lemma contains_length (n h : string) :
  contains n h = true -> (String.length n <= String.length h)%nat.
Proof.
  intros H. apply contains_iff in H as (p & q & ->).
  rewrite !string_length_app. lia.
Qed.

Lemma flush_nonempty (s : string) : s <> "" -> flush s = [s].
Proof. destruct s; [congruence | reflexivity]. Qed.

(** A run of class characters found in the text lies inside one token. *)
Lemma findall_from_covers (n s cur : string) :
  all_word n = true -> n <> "" ->
  contains n (cur ++ s) = true ->
  exists t, In t (findall_from cur s) /\ contains n t = true.
Proof.
  intros Hn Hne. revert cur. induction s as [|c s IH]; intros cur H.
  - rewrite string_app_nil_r in H. simpl.
    rewrite (flush_nonempty cur) by (eapply contains_nonempty; eassumption).
    exists cur. split; [now left | assumption].
  - simpl. destruct (is_word_char c) eqn:Hc.
    + apply IH. rewrite string_app_assoc. exact H.
    + destruct (contains_split n cur s c Hn Hc H) as [Hl|Hr].
      * exists cur. split; [|assumption].
        rewrite (flush_nonempty cur) by (eapply contains_nonempty; eassumption).
        now left.
      * destruct (IH "" Hr) as (t & Ht & Hct).
        exists t. split; [|assumption]. apply in_or_app. now right.
Qed.

Lemma music_keywords_shape :
  forallb (fun k => all_word k && (3 <=? String.length k)%nat
                    && forallb (fun w => negb (contains k w)) stop_words)
          music_keywords = true.
Proof. vm_compute. reflexivity. Qed.

Lemma mem_true_In (x : string) (l : list string) : mem x l = true -> In x l.
Proof.
  unfold mem. intros H. apply existsb_exists in H as (y & Hy & E).
  apply String.eqb_eq in E. now subst.
Qed.

Lemma music_query_has_keyword (query : string) :
  _is_music_related_query query = true -> _extract_keywords query <> [].
Proof.
  unfold _is_music_related_query, _extract_keywords. intros H.
  apply existsb_exists in H as (k & Hk & Hc).
  pose proof music_keywords_shape as S.
  rewrite forallb_forall in S. specialize (S k Hk).
  apply andb_prop in S as [S Hstop]. apply andb_prop in S as [Hw Hlen].
  apply Nat.leb_le in Hlen.
  destruct (findall_from_covers k (lower query) "" Hw) as (t & Ht & Hct);
    [intros ->; simpl in Hlen; lia | exact Hc |].
  assert (Hin : In t (List.filter
            (fun w => (1 <? String.length w)%nat && negb (mem w stop_words))
            (findall_words (lower query)))).
  { apply filter_In. split; [exact Ht|].
    apply andb_true_intro. split.
    - apply Nat.ltb_lt. apply contains_length in Hct. lia.
    - destruct (mem t stop_words) eqn:Hm; [|reflexivity].
      apply mem_true_In in Hm. rewrite forallb_forall in Hstop.
      specialize (Hstop t Hm). rewrite Hct in Hstop. discriminate. }
  intros E. rewrite E in Hin. destruct Hin.
Qed.

(** ** The two sorters meet the pandas interface *)

Lemma insert_before_ties_perm (x : FrameRow * Z) (l : list (FrameRow * Z)) :
  Permutation (insert_before_ties x l) (x :: l).
Proof.
  induction l as [|y l IH]; simpl; [reflexivity|].
  destruct (snd y <=? snd x); [reflexivity|].
  rewrite IH. apply perm_swap.
Qed.


Lemma insert_before_ties_sorted (x : FrameRow * Z) (l : list (FrameRow * Z)) :
  StronglySorted by_score_desc l -> StronglySorted by_score_desc (insert_before_ties x l).
Proof.
  induction 1 as [|y l Hs IH Hy]; simpl.
  - repeat constructor.
  - destruct (Z.leb_spec (snd y) (snd x)) as [Hle|Hgt].
    + constructor; [now constructor|].
      constructor; [exact Hle|].
      eapply Forall_impl; [exact Hy|]. unfold by_score_desc. intros z Hz. simpl in *. lia.
    + constructor; [exact IH|].
      eapply Permutation_Forall; [symmetry; apply insert_before_ties_perm|].
      constructor; [unfold by_score_desc; lia | exact Hy].
Qed.


Lemma stable_sort_desc_perm (l : list (FrameRow * Z)) : Permutation (stable_sort_desc l) l.
Proof.
  induction l as [|x l IH]; simpl; [reflexivity|].
  rewrite insert_before_ties_perm. now constructor.
Qed.


Lemma stable_sort_desc_sorted (l : list (FrameRow * Z)) :
  StronglySorted by_score_desc (stable_sort_desc l).
Proof.
  induction l as [|x l IH]; simpl; [constructor|].
  now apply insert_before_ties_sorted.
Qed.


Lemma first_rows_length (n : nat) (d : DataFrame) :
  (n <= length d)%nat -> length (first_rows n d) = n.
Proof. intros Hn. unfold first_rows. rewrite length_take. lia. Qed.

(** pandas with a sort that keeps ties in frame order. *)
Definition stable_pandas : Pandas :=
  {| sort_values := stable_sort_desc;
     sort_values_perm := stable_sort_desc_perm;
     sort_values_sorted := stable_sort_desc_sorted;
     sample := first_rows;
     sample_length := first_rows_length |}.


(** ** The fields of a returned row *)

Lemma field_is_ok (v : Cell) : field_ok (field v).
Proof.
  unfold field. destruct (if Dataset.truthy v then py_str v else "") eqn:E; simpl;
    [exact I | discriminate].
Qed.

Lemma to_dataset_row_ok (r : FrameRow) : row_ok (to_dataset_row r).
Proof. unfold row_ok, to_dataset_row; simpl. repeat split; apply field_is_ok. Qed.

Section Fields.
Context {pandas : Pandas}.

Lemma keyword_matches_ok (d : DataFrame) (query : string) (max_results : Z) :
  Forall row_ok (keyword_matches d query max_results).
Proof.
  unfold keyword_matches. destruct (_extract_keywords query); [constructor|].
  match goal with |- context [if ?b then _ else _] => destruct b end; [constructor|].
  apply List.Forall_forall. intros r Hr. apply in_map_iff in Hr as (rs & <- & _).
  apply to_dataset_row_ok.
Qed.

Lemma search_ok (d : DataFrame) (query : string) (max_results : Z) (rows : list DatasetRow) :
  search d query max_results = Ok rows -> Forall row_ok rows.
Proof.
  unfold search. intros Hs.
  destruct (_is_music_related_query query).
  - destruct (_extract_keywords query) eqn:Ek.
    + destruct (Z.min max_results (Z.of_nat (length d)) <? 0); [discriminate|].
      inversion Hs; subst. apply List.Forall_forall. intros r Hr.
      apply in_map_iff in Hr as (x & <- & _). apply to_dataset_row_ok.
    + inversion Hs; subst. apply keyword_matches_ok.
  - inversion Hs; subst. apply keyword_matches_ok.
Qed.

(** C10: every row [find_relevant] returns, on either branch, has each of its
    five fields equal to [None] or to a string that is not empty. *)
Theorem find_relevant_fields_not_empty (fs : FileSystem) (self self' : Service)
    (query : string) (max_results : Z) (rows : list DatasetRow) :
  find_relevant fs self query max_results = (self', Ok rows) ->
  Forall row_ok rows.
Proof.
  unfold find_relevant. intros Hf.
  destruct (is_available fs _) eqn:Ea in Hf.
  - destruct (_df _) eqn:Ed in Hf.
    + inversion Hf as [[Hs Hr]]. eapply search_ok; eassumption.
    + inversion Hf; subst. constructor.
  - inversion Hf; subst. constructor.
Qed.

End Fields.

Lemma find_relevant_fields_not_empty_witness :
  exists rows,
    find_relevant (pandas := stable_pandas) Examples.disk Examples.fresh "love story" 12
    = (Examples.loaded, Ok rows)
    /\ length rows = 2%nat /\ Forall row_ok rows.
Proof.
  eexists. split; [vm_compute; reflexivity|]. split; [reflexivity|].
  apply (find_relevant_fields_not_empty (pandas := stable_pandas)
           Examples.disk Examples.fresh Examples.loaded "love story" 12).
  vm_compute. reflexivity.
Defined.

(** ** An index that could not be loaded *)

Section Unavailable.
Context {pandas : Pandas}.



Lemma unloaded_not_available (fs : FileSystem) (self : Service) :
  _loaded self = false -> is_available fs self = false.
Proof.
  unfold is_available. intros ->. destruct (csv_path self); [|reflexivity].
  now rewrite andb_false_r.
Qed.




End Unavailable.


(** A service that was loaded returns nothing once the file is gone. *)
Lemma file_removed_after_load_example :
  source_unusable Examples.empty_disk Examples.loaded
  /\ find_relevant (pandas := stable_pandas) Examples.empty_disk Examples.loaded
       "love story" 12
     = (Examples.loaded, Ok []).
Proof. split; [left; reflexivity | vm_compute; reflexivity]. Qed.

(** ** The context block *)

Lemma substring_length (n : nat) (s : string) :
  String.length (String.substring 0 n s) = Nat.min n (String.length s).
Proof.
  revert n. induction s as [|c s IH]; intros [|n]; simpl; try reflexivity.
  now rewrite IH.
Qed.

Lemma slice_to_length (s : string) (stop : Z) :
  Z.of_nat (String.length (slice_to s stop))
  = if stop <? 0 then Z.max 0 (stop + Z.of_nat (String.length s))
    else Z.min stop (Z.of_nat (String.length s)).
Proof.
  unfold slice_to. rewrite substring_length.
  destruct (Z.ltb_spec stop 0); lia.
Qed.

(** With a budget of at least 3 the block fits the budget. *)
Lemma truncate_within_budget (context : string) (char_limit : Z) :
  3 <= char_limit ->
  Z.of_nat (String.length (truncate context char_limit)) <= char_limit.
Proof.
  intros Hl. unfold truncate.
  destruct (Z.ltb_spec char_limit (Z.of_nat (String.length context))) as [Hlt|Hge]; [|lia].
  rewrite string_length_app, Nat2Z.inj_add, slice_to_length. simpl.
  destruct (Z.ltb_spec (char_limit - 3) 0); lia.
Qed.

(** A block that is cut ends with the ellipsis. *)
Lemma truncate_ends_with_ellipsis (context : string) (char_limit : Z) :
  char_limit < Z.of_nat (String.length context) ->
  exists kept, truncate context char_limit = kept ++ "...".
Proof.
  intros Hlt. unfold truncate.
  destruct (Z.ltb_spec char_limit (Z.of_nat (String.length context))); [|lia].
  eexists. reflexivity.
Qed.


Lemma context_lines_from (matches : list DatasetRow) (lines : list string) :
  fold_left (fun lines r => append lines (context_line r)) matches lines
  = (lines ++ map context_line matches)%list.
Proof.
  revert lines. induction matches as [|r rest IH]; intros lines; simpl.
  - now rewrite app_nil_r.
  - rewrite IH. unfold append. now rewrite <- app_assoc.
Qed.

Lemma context_lines_eq (matches : list DatasetRow) :
  context_lines matches = context_header :: map context_line matches.
Proof. unfold context_lines. now rewrite context_lines_from. Qed.


Lemma context_line_format (r : DatasetRow) : context_line r = formatted_line r.
Proof.
  unfold context_line, formatted_line, line_segments, optional_segment, subject_segment, append.
  destruct (opt_truthy (timestamp r)), (opt_truthy (album r)), (opt_truthy (ms_played r));
    reflexivity.
Qed.

Section ContextBlock.
Context {pandas : Pandas}.

Lemma get_relevant_context_eq (fs : FileSystem) (self self' : Service) (query : string)
    (char_limit : Z) (matches : list DatasetRow) :
  find_relevant fs self query 12 = (self', Ok matches) -> matches <> [] ->
  get_relevant_context fs self query char_limit
  = (self', Ok (Some (truncate (join newline (context_lines matches)) char_limit))).
Proof.
  intros Hf Hne. unfold get_relevant_context. rewrite Hf.
  destruct matches; [congruence | reflexivity].
Qed.

Lemma get_relevant_context_block (fs : FileSystem) (self self' : Service) (query : string)
    (char_limit : Z) (block : string) :
  get_relevant_context fs self query char_limit = (self', Ok (Some block)) ->
  exists matches,
    find_relevant fs self query 12 = (self', Ok matches) /\ matches <> []
    /\ block = truncate (join newline (context_lines matches)) char_limit.
Proof.
  unfold get_relevant_context.
  destruct (find_relevant fs self query 12) as [s [matches|e]]; [|discriminate].
  destruct matches as [|m ms]; [discriminate|].
  intros Hg. inversion Hg; subst. exists (m :: ms). repeat split. discriminate.
Qed.


(** For a budget of at least 3 the block is within the budget, and a block
    that had to be cut ends with the ellipsis. *)
Lemma context_within_budget_from_3 (fs : FileSystem) (self self' : Service)
    (query : string) (char_limit : Z) (block : string) :
  3 <= char_limit ->
  get_relevant_context fs self query char_limit = (self', Ok (Some block)) ->
  Z.of_nat (String.length block) <= char_limit
  /\ exists matches,
       find_relevant fs self query 12 = (self', Ok matches)
       /\ (char_limit < Z.of_nat (String.length (join newline (context_lines matches))) ->
           exists kept, block = kept ++ "...").
Proof.
  intros Hl Hg.
  destruct (get_relevant_context_block _ _ _ _ _ _ Hg) as (matches & Hf & _ & ->).
  split; [now apply truncate_within_budget|].
  exists matches. split; [exact Hf|]. apply truncate_ends_with_ellipsis.
Qed.

(** C8, as amended: the block is the header followed by one line per matched
    row, cut to the budget; a line is the dash prefix and the segments joined
    by a bar, the timestamp, album and played_ms segments present exactly when
    the field is not empty and the subject segment always present. *)
Theorem context_block_format (fs : FileSystem) (self self' : Service) (query : string)
    (char_limit : Z) (matches : list DatasetRow) :
  find_relevant fs self query 12 = (self', Ok matches) -> matches <> [] ->
  let lines := context_header :: map formatted_line matches in
  length lines = S (length matches)
  /\ get_relevant_context fs self query char_limit
     = (self', Ok (Some (truncate (join newline lines) char_limit)))
  /\ (Z.of_nat (String.length (join newline lines)) <= char_limit ->
      get_relevant_context fs self query char_limit
      = (self', Ok (Some (join newline lines)))).
Proof.
  intros Hf Hne lines.
  assert (El : context_lines matches = lines).
  { rewrite context_lines_eq. unfold lines. f_equal.
    apply map_ext. intros r. apply context_line_format. }
  rewrite (get_relevant_context_eq fs self self' query char_limit matches Hf Hne), El.
  split; [unfold lines; simpl; now rewrite length_map|].
  split; [reflexivity|].
  intros Hfit. unfold truncate.
  destruct (Z.ltb_spec char_limit (Z.of_nat (String.length (join newline lines)))); [lia|].
  reflexivity.
Qed.

End ContextBlock.


(** C3 at a concrete input: with a budget of 2 the block of two matches, 213
    characters long, comes back with one character removed and the ellipsis
    added, 215 characters. *)
Lemma context_budget_2_returns_215 :
  exists block,
    get_relevant_context (pandas := stable_pandas) Examples.disk Examples.fresh
      "love story" 2 = (Examples.loaded, Ok (Some block))
    /\ String.length block = 215%nat.
Proof. eexists. split; vm_compute; reflexivity. Qed.

Lemma context_block_format_witness :
  let matches := map to_dataset_row [Examples.row_love_story; Examples.row_love_me_do] in
  let lines := context_header :: map formatted_line matches in
  find_relevant (pandas := stable_pandas) Examples.disk Examples.fresh "love story" 12
  = (Examples.loaded, Ok matches)
  /\ matches <> []
  /\ length lines = 3%nat
  /\ get_relevant_context (pandas := stable_pandas) Examples.disk Examples.fresh
       "love story" 1500
     = (Examples.loaded, Ok (Some (truncate (join newline lines) 1500))).
Proof.
  intros matches lines.
  assert (Hf : find_relevant (pandas := stable_pandas) Examples.disk Examples.fresh
                 "love story" 12 = (Examples.loaded, Ok matches))
    by (vm_compute; reflexivity).
  assert (Hne : matches <> []) by discriminate.
  destruct (context_block_format (pandas := stable_pandas) Examples.disk Examples.fresh
              Examples.loaded "love story" 1500 matches Hf Hne) as (Hlen & Hblock & _).
  split; [exact Hf|]. split; [exact Hne|]. split; [exact Hlen | exact Hblock].
Defined.

(** C8 as stated fails: a matched row without track and artist still gets the
    subject segment, filled with the placeholders, where the claim has every
    empty field left out. *)
Lemma context_line_keeps_empty_subject :
  let matches := [to_dataset_row Examples.row_album_only] in
  find_relevant (pandas := stable_pandas) Examples.album_disk Examples.fresh "blue train" 12
  = (Examples.album_loaded, Ok matches)
  /\ snd (get_relevant_context (pandas := stable_pandas) Examples.album_disk Examples.fresh
            "blue train" 1500)
     = Ok (Some (context_header ++ newline
                 ++ " - 2020 | 'Unknown Track' by Unknown Artist | album: Blue Train"))
  /\ spec_context_block matches
     = context_header ++ newline ++ " - 2020 | album: Blue Train"
  /\ snd (get_relevant_context (pandas := stable_pandas) Examples.album_disk Examples.fresh
            "blue train" 1500)
     <> Ok (Some (spec_context_block matches)).
Proof.
  intros matches.
  split; [vm_compute; reflexivity|]. split; [vm_compute; reflexivity|].
  split; [vm_compute; reflexivity|].
  vm_compute. intros H. discriminate H.
Qed.

(** ** Keyword search *)

Lemma count_fold (f : string -> bool) (l : list string) (acc : Z) :
  fold_left (fun acc k => if f k then acc + 1 else acc) l acc
  = acc + Z.of_nat (length (List.filter f l)).
Proof.
  revert acc. induction l as [|k l IH]; intros acc; simpl; [lia|].
  rewrite IH. destruct (f k); simpl length; lia.
Qed.

Lemma filter_none {A : Type} (f : A -> bool) (l : list A) :
  (forall x, In x l -> f x = false) -> List.filter f l = [].
Proof.
  induction l as [|x l IH]; intros Hall; simpl; [reflexivity|].
  rewrite (Hall x) by now left. apply IH. intros y Hy. apply Hall. now right.
Qed.

Lemma contains_in_empty (k : string) : k <> "" -> contains k "" = false.
Proof. destruct k; [congruence | reflexivity]. Qed.

Lemma extracted_keyword_nonempty (query k : string) :
  In k (_extract_keywords query) -> k <> "".
Proof.
  unfold _extract_keywords. intros Hk. apply filter_In in Hk as [_ Hk].
  apply andb_prop in Hk as [Hlen _]. intros ->. discriminate Hlen.
Qed.

(** [score_row] computes the match score. *)
Lemma score_row_is_match_score (query hay : string) :
  score_row (_extract_keywords query) hay = match_score query hay.
Proof.
  unfold score_row, match_score. destruct hay as [|c hay].
  - rewrite filter_none; [reflexivity|]. intros k Hk.
    apply contains_in_empty. eapply extracted_keyword_nonempty; eassumption.
  - rewrite count_fold. lia.
Qed.

(** Selecting by the mask keeps the rows of positive score, in frame order. *)
Lemma masked_rows_eq (score : FrameRow -> Z) (d : DataFrame) :
  map snd (List.filter (fun bx : bool * (FrameRow * Z) => fst bx)
             (combine (map (fun s => 0 <? s) (map score d)) (combine d (map score d))))
  = List.filter (fun rs : FrameRow * Z => 0 <? snd rs) (map (fun r => (r, score r)) d).
Proof.
  induction d as [|r d IH]; simpl; [reflexivity|].
  destruct (0 <? score r); simpl; now rewrite IH.
Qed.

Lemma mask_none_no_rows (score : FrameRow -> Z) (d : DataFrame) :
  existsb (fun b : bool => b) (map (fun s => 0 <? s) (map score d)) = false ->
  List.filter (fun rs : FrameRow * Z => 0 <? snd rs) (map (fun r => (r, score r)) d) = [].
Proof.
  induction d as [|r d IH]; simpl; [reflexivity|].
  destruct (0 <? score r); simpl; [discriminate | exact IH].
Qed.


Section KeywordSearch.
Context {pandas : Pandas}.

Lemma keyword_matches_ranked (d : DataFrame) (query : string) (max_results : Z) :
  _extract_keywords query <> [] ->
  keyword_matches d query max_results
  = map (fun rs => to_dataset_row (fst rs))
        (head max_results (sort_values (positive_rows d query))).
Proof.
  intros Hk. unfold keyword_matches, positive_rows.
  destruct (_extract_keywords query) as [|k ks] eqn:Ek; [congruence|].
  rewrite <- Ek.
  rewrite (masked_rows_eq (fun r => score_row (_extract_keywords query) (col_haystack r)) d).
  assert (Es : map (fun r => (r, score_row (_extract_keywords query) (col_haystack r))) d
               = map (fun r => (r, match_score query (col_haystack r))) d).
  { apply map_ext. intros r. now rewrite score_row_is_match_score. }
  destruct (existsb _ _) eqn:Em; simpl.
  - now rewrite Es.
  - apply mask_none_no_rows in Em. rewrite <- Es, Em.
    pose proof (sort_values_perm []) as Hp. apply Permutation_sym, Permutation_nil in Hp.
    rewrite Hp. unfold head. now rewrite take_nil.
Qed.



End KeywordSearch.



(** With a sort that keeps ties in frame order the result is the one the
    claim describes. *)
Lemma find_relevant_stable_sort_example :
  snd (find_relevant (pandas := stable_pandas) Examples.disk Examples.loaded "love" 12)
  = Ok (spec_find_relevant Examples.frame "love" 12).
Proof. vm_compute. reflexivity. Qed.

(** The row of Song X is found by a question about it, and the context block
    has its line. *)
Lemma song_x_example :
  _extract_keywords "tell me about Song X" = ["tell"; "about"; "song"]
  /\ find_relevant (pandas := stable_pandas) Examples.disk Examples.loaded
       "tell me about Song X" 12
     = (Examples.loaded, Ok [to_dataset_row Examples.row_x])
  /\ snd (get_relevant_context (pandas := stable_pandas) Examples.disk Examples.loaded
            "tell me about Song X" 1500)
     = Ok (Some (context_header ++ newline
                 ++ " - 2024-01-01 10:00 | 'Song X' by Artist Y | album: Album Z | played_ms: 215000")).
Proof. repeat split; vm_compute; reflexivity. Qed.

(** ** Generation *)

Import Ollama.

Lemma check_server_health_run (backend : Backend) (log : list Request) :
  check_server_health backend log = (Ok (healthy backend), (log ++ [tags_request])%list).
Proof.
  unfold check_server_health, try_except, bind, _make_request, ret, healthy, tags_request.
  destruct (backend _); reflexivity.
Qed.

Lemma get_available_models_run (backend : Backend) (log : list Request) :
  get_available_models backend log = (Ok (available backend), (log ++ [tags_request])%list).
Proof.
  unfold get_available_models, try_except, bind, _make_request, ret, lift, throw,
    available, tags_request.
  destruct (backend _) as [j|ls| | |msg]; try reflexivity.
  destruct j; try reflexivity.
  destruct (iterate_models _); reflexivity.
Qed.

Lemma generate_single_response_run (backend : Backend) (config : Config) (payload : Payload)
    (log : list Request) :
  _generate_single_response backend config payload log
  = (Ok (match reply_content (backend (chat_request payload)) with
         | Some content => content
         | None => JStr (general_error_message config)
         end),
     (log ++ [chat_request payload])%list).
Proof.
  unfold _generate_single_response, try_except, bind, _make_request, ret, lift,
    reply_content, chat_request.
  destruct (backend _) as [j|ls| | |msg]; try reflexivity.
  destruct j as [|b|q|s|items|members]; simpl; try reflexivity.
  - destruct (contains "message" s); reflexivity.
  - destruct (existsb (str_eq "message") items); reflexivity.
  - destruct (dict_get "message" members) as [m|]; [|reflexivity].
    destruct m as [|b|q|s|items|mm]; simpl; try reflexivity.
    destruct (dict_get "content" mm); reflexivity.
Qed.

(** The non-streaming call sends one request and returns; what it returns is
    read off the reply. *)
Lemma generate_response_run (backend : Backend) (config : Config) (message : string)
    (model : option Json) (system_prompt : option string) (temperature : option Q)
    (max_tokens : option Z) (log : list Request) :
  let payload :=
    chat_payload config message model system_prompt temperature max_tokens false in
  generate_response backend config message model system_prompt temperature max_tokens
    false log
  = (Ok (match reply_content (backend (chat_request payload)) with
         | Some content => content
         | None => JStr (general_error_message config)
         end),
     (log ++ [chat_request payload])%list).
Proof.
  intros payload. unfold generate_response, try_except. fold payload.
  now rewrite generate_single_response_run.
Qed.


(** The failures named in the claim all give the configured message. *)
Lemma generate_response_on_failure (backend : Backend) (config : Config) (message : string)
    (model : option Json) (system_prompt : option string) (temperature : option Q)
    (max_tokens : option Z) (log : list Request) :
  let payload :=
    chat_payload config message model system_prompt temperature max_tokens false in
  (forall j, backend (chat_request payload) <> Body j) ->
  fst (generate_response backend config message model system_prompt temperature
         max_tokens false log)
  = Ok (JStr (general_error_message config)).
Proof.
  intros payload Hfail. unfold payload. rewrite generate_response_run. fold payload.
  simpl. destruct (backend (chat_request payload)) as [j| | | |] eqn:E; try reflexivity.
  now destruct (Hfail j).
Qed.

Lemma generate_response_example :
  fst (generate_response (Examples.listing ["llama3.2:3b"] "Hi!") OLLAMA_CONFIG
         "hello" None None None None false [])
  = Ok (JStr "Hi!")
  /\ fst (generate_response (fun req => TimedOut) OLLAMA_CONFIG
            "hello" None None None None false [])
     = Ok (JStr "I apologize, but I encountered an error while processing your request.").
Proof. split; vm_compute; reflexivity. Qed.

(** ** Model resolution and the chat endpoint *)

Import Chat.

Lemma generate_ollama_response_run (backend : Backend) (config : Config)
    (user_message : string) (agent : option Agent) (dataset_context : option string)
    (log : list Request) :
  generate_ollama_response_with_context backend config user_message agent dataset_context log
  = if healthy backend then
      match select_model config (map name_of (available backend)) with
      | None => (Ok (JStr no_models_message), (log ++ [tags_request; tags_request])%list)
      | Some chosen =>
          generate_response backend config user_message (Some chosen)
            (Some (compose_prompt config agent dataset_context))
            (Some (Ollama.temperature config)) (Some (Ollama.max_tokens config)) false
            (log ++ [tags_request; tags_request])%list
      end
    else (Ok (JStr (connection_error_message config)), (log ++ [tags_request])%list).
Proof.
  unfold generate_ollama_response_with_context, try_except, bind.
  rewrite check_server_health_run. destruct (healthy backend); simpl; [|reflexivity].
  rewrite get_available_models_run, <- app_assoc. simpl.
  destruct (select_model config _) as [chosen|]; [|reflexivity].
  now rewrite generate_response_run.
Qed.

(** The chat path never raises. *)
Lemma generate_ollama_response_never_raises (backend : Backend) (config : Config)
    (user_message : string) (agent : option Agent) (dataset_context : option string)
    (log : list Request) :
  exists answer log',
    generate_ollama_response_with_context backend config user_message agent
      dataset_context log = (Ok answer, log').
Proof.
  rewrite generate_ollama_response_run. destruct (healthy backend); [|eauto].
  destruct (select_model config _); [|eauto].
  rewrite generate_response_run. eauto.
Qed.




Section NoModels.
Context {pandas : Pandas}.

(** C5, as amended: when the backend is reachable and reports no installed
    model, no chat request is sent and the fixed message saying so is the value
    returned; [send_message] stores that message as the response of the turn
    and returns the stored row, as it does for a generated answer. *)
Theorem no_models_reported_as_answer (db : Session) (fs : FileSystem) (backend : Backend)
    (config : Config) (svc : Service) (message_data : MessageData) (log : list Request)
    (uid : Z) (agent : option Agent) (agent_parts : list string) :
  healthy backend = true ->
  map name_of (available backend) = [] ->
  get_user_by_id db (md_user_id message_data) = Some uid ->
  load_agent db message_data = Ok (Returned (agent, agent_parts)) ->
  md_response message_data = None ->
  (forall dataset_context log0,
     generate_ollama_response_with_context backend config (md_message message_data) agent
       dataset_context log0
     = (Ok (JStr no_models_message), (log0 ++ [tags_request; tags_request])%list))
  /\ exists svc' context_used,
       send_message db fs backend config svc message_data log
       = (svc',
          match add_commit_refresh db (md_user_id message_data) (md_agent_id message_data)
                  (md_message message_data) (JStr no_models_message) context_used with
          | Ok db_message => Returned db_message
          | Raise e => HTTPException 500 ("Internal server error: " ++ exc_str e)
          end,
          (log ++ [tags_request; tags_request; tags_request])%list).
Proof.
  intros Hh Hn Hu Ha Hr. split.
  - intros dataset_context log0.
    now rewrite generate_ollama_response_run, Hh, Hn.
  - unfold send_message. rewrite Hu, Ha, Hr.
    destruct (load_dataset_context fs svc message_data) as [[svc' dataset_context] parts].
    rewrite check_server_health_run, Hh, generate_ollama_response_run, Hh, Hn. simpl.
    unfold create_chat_message_with_agent.
    exists svc'. eexists.
    destruct (add_commit_refresh db _ _ _ _ _) eqn:E; rewrite <- app_assoc; simpl;
      rewrite E; reflexivity.
Qed.

End NoModels.

Lemma no_models_reported_as_answer_witness :
  healthy (Examples.listing [] "Hi!") = true
  /\ map name_of (available (Examples.listing [] "Hi!")) = []
  /\ get_user_by_id Examples.store (md_user_id Examples.hello) = Some 1
  /\ load_agent Examples.store Examples.hello = Ok (Returned (None, []))
  /\ md_response Examples.hello = None
  /\ (forall dataset_context log0,
        generate_ollama_response_with_context (Examples.listing [] "Hi!") OLLAMA_CONFIG
          (md_message Examples.hello) None dataset_context log0
        = (Ok (JStr no_models_message), (log0 ++ [tags_request; tags_request])%list))
  /\ exists svc' context_used,
       send_message (pandas := stable_pandas) Examples.store Examples.disk
         (Examples.listing [] "Hi!") OLLAMA_CONFIG Examples.fresh Examples.hello []
       = (svc',
          Returned (mkChatMessage 7 1 None "hello there" (JStr no_models_message)
                      context_used 1700000000),
          [tags_request; tags_request; tags_request]).
Proof.
  assert (Hh : healthy (Examples.listing [] "Hi!") = true) by reflexivity.
  assert (Hn : map name_of (available (Examples.listing [] "Hi!")) = []) by reflexivity.
  assert (Hu : get_user_by_id Examples.store (md_user_id Examples.hello) = Some 1)
    by reflexivity.
  assert (Ha : load_agent Examples.store Examples.hello = Ok (Returned (None, [])))
    by reflexivity.
  assert (Hr : md_response Examples.hello = None) by reflexivity.
  split; [exact Hh|]. split; [exact Hn|]. split; [exact Hu|]. split; [exact Ha|].
  split; [exact Hr|].
  exact (no_models_reported_as_answer (pandas := stable_pandas) Examples.store Examples.disk
           (Examples.listing [] "Hi!") OLLAMA_CONFIG Examples.fresh Examples.hello []
           1 None [] Hh Hn Hu Ha Hr).
Defined.

(** C5 as stated fails: what the caller of [send_message] gets when no model
    is installed is a stored chat message, and it is the very message the
    caller gets when a model is installed and generates that text. *)
Lemma no_models_not_told_from_answer :
  let without_models :=
    send_message (pandas := stable_pandas) Examples.store Examples.disk
      (Examples.listing [] "Hi!") OLLAMA_CONFIG Examples.fresh Examples.hello [] in
  let with_model :=
    send_message (pandas := stable_pandas) Examples.store Examples.disk
      (Examples.listing ["llama3.2:3b"] no_models_message) OLLAMA_CONFIG Examples.fresh
      Examples.hello [] in
  available (Examples.listing [] "Hi!") = []
  /\ map endpoint (snd without_models) = ["/api/tags"; "/api/tags"; "/api/tags"]
  /\ map endpoint (snd with_model) = ["/api/tags"; "/api/tags"; "/api/tags"; "/api/chat"]
  /\ (exists db_message,
        snd (fst without_models) = Returned db_message
        /\ response db_message = JStr no_models_message)
  /\ snd (fst without_models) = snd (fst with_model).
Proof.
  intros without_models with_model.
  split; [reflexivity|]. split; [vm_compute; reflexivity|].
  split; [vm_compute; reflexivity|].
  split; [eexists; split; vm_compute; reflexivity|].
  vm_compute. reflexivity.
Qed.

(** ** The sampling branch *)

Section Sampling.
Context {pandas : Pandas}.

(** No query reaches the sampling branch of [find_relevant]: a query that
    contains a domain keyword has that keyword inside one of its tokens, and
    the token is longer than one character and is not a stop word. *)
Lemma sampling_branch_unreachable (d : DataFrame) (query : string) (max_results : Z) :
  search d query max_results = Ok (keyword_matches d query max_results).
Proof.
  unfold search. destruct (_is_music_related_query query) eqn:Em; [|reflexivity].
  apply music_query_has_keyword in Em.
  destruct (_extract_keywords query); [congruence | reflexivity].
Qed.


End Sampling.


(** The failing input: the query [songs] contains a domain keyword, the
    dataset has four rows, none of which mentions the word, and the result is
    empty where a sample of four rows is expected; the same for a question in
    plain words. *)
Lemma domain_query_returns_no_sample :
  _is_music_related_query "songs" = true
  /\ _extract_keywords "songs" = ["songs"]
  /\ length Examples.frame = 4%nat
  /\ find_relevant (pandas := stable_pandas) Examples.disk Examples.loaded "songs" 12
     = (Examples.loaded, Ok [])
  /\ find_relevant (pandas := stable_pandas) Examples.disk Examples.loaded
       "What songs do I like?" 12
     = (Examples.loaded, Ok []).
Proof. repeat split; vm_compute; reflexivity. Qed.

(** ** Warming the cache *)

Import Users.

(** C9, as the code has it: [cache_user_messages_on_login] never reports
    [cached = True].  Without a Redis client it says so; with one, the lookup
    of [get_chat_messages_by_user] on [ChatCRUD] raises, and the handler
    reports the failure. *)
Theorem warm_cache_never_cached (redis_client : option Redis) (uid : Z)
    (db : Users.Session) :
  snd (cache_user_messages_on_login redis_client uid db) !! "cached" = Some (VBool false)
  /\ snd (cache_user_messages_on_login redis_client uid db) !! "messages_count" = None
  /\ fst (cache_user_messages_on_login redis_client uid db) = redis_client.
Proof.
  unfold cache_user_messages_on_login, cache_user_messages_with.
  destruct redis_client as [r|]; simpl; repeat split; reflexivity.
Qed.

(** The failing input: Redis is reachable and user 1 has no messages. *)
Lemma warm_cache_empty_history :
  let db := Users.mkSession (fun uid skip limit => Ok []) in
  let redis_client := Some (mkRedis true ∅) in
  snd (cache_user_messages_on_login redis_client 1 db)
  = <["reason" := VStr "type object 'ChatCRUD' has no attribute 'get_chat_messages_by_user'"]>
      (<["cached" := VBool false]> ∅)
  /\ snd (cache_user_messages_with "get_user_messages" redis_client 1 db)
     = <["reason" := VStr "No messages to cache"]>
         (<["messages_count" := VInt 0]> (<["cached" := VBool true]> ∅)).
Proof. split; reflexivity. Qed.

(** With the method [ChatCRUD] does define, an empty history is reported as
    cached with a count of 0. *)
Lemma warm_cache_with_existing_method (r : Redis) (uid : Z) (db : Users.Session) :
  recent_messages db uid 0 100 = Ok [] ->
  snd (cache_user_messages_with "get_user_messages" (Some r) uid db) !! "cached"
  = Some (VBool true)
  /\ snd (cache_user_messages_with "get_user_messages" (Some r) uid db) !! "messages_count"
     = Some (VInt 0).
Proof.
  intros Hm. unfold cache_user_messages_with. simpl. rewrite Hm. simpl.
  split; reflexivity.
Qed.

(** * Further properties *)

(** ** Keywords *)

Lemma all_chars_app (p : ascii -> bool) (a b : string) :
  all_chars p (a ++ b) = all_chars p a && all_chars p b.
Proof.
  induction a as [|c a IH]; [reflexivity|].
  rewrite string_app_cons. simpl. now rewrite IH, andb_assoc.
Qed.

Lemma flush_all_chars (p : ascii -> bool) (cur : string) :
  all_chars p cur = true -> Forall (fun t => all_chars p t = true) (flush cur).
Proof. destruct cur; intros H; simpl; constructor; auto. Qed.

(** The tokens consist of characters of the text. *)
Lemma findall_from_all_chars (p : ascii -> bool) (s cur : string) :
  all_chars p cur = true -> all_chars p s = true ->
  Forall (fun t => all_chars p t = true) (findall_from cur s).
Proof.
  revert cur. induction s as [|c s IH]; intros cur Hc Hs; simpl.
  - now apply flush_all_chars.
  - simpl in Hs. apply andb_prop in Hs as [Hpc Hs].
    destruct (is_word_char c).
    + apply IH; [|exact Hs]. rewrite all_chars_app, Hc. simpl. now rewrite Hpc.
    + apply Forall_app. split; [now apply flush_all_chars | now apply IH].
Qed.

(** The tokens consist of characters of the class. *)
Lemma findall_from_word_chars (s cur : string) :
  all_chars is_word_char cur = true ->
  Forall (fun t => all_chars is_word_char t = true) (findall_from cur s).
Proof.
  revert cur. induction s as [|c s IH]; intros cur Hc; simpl.
  - now apply flush_all_chars.
  - destruct (is_word_char c) eqn:Ec.
    + apply IH. rewrite all_chars_app, Hc. simpl. now rewrite Ec.
    + apply Forall_app. split; [now apply flush_all_chars | now apply IH].
Qed.

Lemma lower_char_not_upper (c : ascii) : is_upper (lower_char c) = false.
Proof. destruct c as [[] [] [] [] [] [] [] []]; reflexivity. Qed.

Lemma lower_char_idempotent (c : ascii) : lower_char (lower_char c) = lower_char c.
Proof. destruct c as [[] [] [] [] [] [] [] []]; reflexivity. Qed.

Lemma keyword_char_iff (c : ascii) :
  is_keyword_char c = is_word_char c && negb (is_upper c).
Proof. destruct c as [[] [] [] [] [] [] [] []]; reflexivity. Qed.

Lemma lower_no_upper (s : string) :
  all_chars (fun c => negb (is_upper c)) (lower s) = true.
Proof.
  induction s as [|c s IH]; [reflexivity|].
  simpl. now rewrite lower_char_not_upper, IH.
Qed.

Lemma lower_idempotent (s : string) : lower (lower s) = lower s.
Proof.
  induction s as [|c s IH]; [reflexivity|].
  simpl. now rewrite lower_char_idempotent, IH.
Qed.

Lemma all_chars_and (p q : ascii -> bool) (s : string) :
  all_chars p s = true -> all_chars q s = true ->
  all_chars (fun c => p c && q c) s = true.
Proof.
  induction s as [|c s IH]; [reflexivity|]. simpl. intros Hp Hq.
  apply andb_prop in Hp as [-> Hp]. apply andb_prop in Hq as [-> Hq]. simpl. now apply IH.
Qed.

Lemma all_chars_ext (p q : ascii -> bool) (s : string) :
  (forall c, p c = q c) -> all_chars p s = all_chars q s.
Proof. intros E. induction s as [|c s IH]; [reflexivity|]. simpl. now rewrite E, IH. Qed.

(** X1: every keyword [_extract_keywords] returns has at least two characters,
    all of them among a-z, 0-9 and the apostrophe, and is not a stop word. *)
Theorem extracted_keywords_shape (text k : string) :
  In k (_extract_keywords text) ->
  (2 <= String.length k)%nat
  /\ all_chars is_keyword_char k = true
  /\ mem k stop_words = false.
Proof.
  unfold _extract_keywords. intros Hk. apply filter_In in Hk as [Hin Hk].
  apply andb_prop in Hk as [Hlen Hstop].
  apply Nat.ltb_lt in Hlen. apply negb_true_iff in Hstop.
  split; [lia|]. split; [|exact Hstop].
  pose proof (findall_from_word_chars (lower text) "" eq_refl) as Hw.
  pose proof (findall_from_all_chars (fun c => negb (is_upper c)) (lower text) ""
                eq_refl (lower_no_upper text)) as Hl.
  rewrite List.Forall_forall in Hw, Hl.
  rewrite (all_chars_ext _ _ k keyword_char_iff).
  apply all_chars_and; [now apply Hw | now apply Hl].
Qed.

Lemma extracted_keywords_shape_witness :
  In "it's" (_extract_keywords "Is IT'S me?")
  /\ (2 <= String.length "it's")%nat
  /\ all_chars is_keyword_char "it's" = true
  /\ mem "it's" stop_words = false.
Proof.
  assert (Hin : In "it's" (_extract_keywords "Is IT'S me?")) by (vm_compute; auto).
  split; [exact Hin|].
  exact (extracted_keywords_shape "Is IT'S me?" "it's" Hin).
Defined.

(** ** Queries on any service *)

Section AnyQuery.
Context {pandas : Pandas}.

(** X2: the case of the letters of a query does not matter: the query in
    lower case gets the result of the query itself. *)
Theorem find_relevant_ignores_case (fs : FileSystem) (self : Service) (query : string)
    (max_results : Z) :
  find_relevant fs self (lower query) max_results
  = find_relevant fs self query max_results.
Proof.
  unfold find_relevant, search, keyword_matches, _is_music_related_query, _extract_keywords.
  now rewrite lower_idempotent.
Qed.


Lemma head_length_le {A : Type} (n : Z) (l : list A) :
  (length (head n l) <= length l)%nat
  /\ (0 <= n -> Z.of_nat (length (head n l)) <= n).
Proof.
  unfold head. rewrite length_take. split; [lia|].
  intros Hn. destruct (Z.ltb_spec n 0); lia.
Qed.

Lemma positive_rows_length (d : DataFrame) (query : string) :
  (length (positive_rows d query) <= length d)%nat.
Proof.
  unfold positive_rows.
  etransitivity; [apply List.filter_length_le|]. now rewrite length_map.
Qed.

Lemma keyword_matches_length (d : DataFrame) (query : string) (max_results : Z) :
  (length (keyword_matches d query max_results) <= length d)%nat
  /\ (0 <= max_results -> Z.of_nat (length (keyword_matches d query max_results)) <= max_results).
Proof.
  destruct (_extract_keywords query) as [|k ks] eqn:Ek.
  - unfold keyword_matches. rewrite Ek. simpl. split; lia.
  - rewrite keyword_matches_ranked by (rewrite Ek; discriminate).
    rewrite length_map.
    destruct (head_length_le max_results (sort_values (positive_rows d query))) as [H1 H2].
    split; [|exact H2].
    rewrite (Permutation_length (sort_values_perm _)) in H1.
    pose proof (positive_rows_length d query). lia.
Qed.

(** X4: [find_relevant] returns at most [max_results] rows when
    [max_results] is not negative, and never more rows than the frame has;
    without a frame it returns none. *)
Theorem find_relevant_size (fs : FileSystem) (self self' : Service) (query : string)
    (max_results : Z) (rows : list DatasetRow) :
  find_relevant fs self query max_results = (self', Ok rows) ->
  (0 <= max_results -> Z.of_nat (length rows) <= max_results)
  /\ match _df self' with
     | Some d => (length rows <= length d)%nat
     | None => rows = []
     end.
Proof.
  unfold find_relevant. intros Hf.
  destruct (is_available fs _) eqn:Ea in Hf.
  - destruct (_df _) as [d|] eqn:Ed in Hf.
    + rewrite sampling_branch_unreachable in Hf. inversion Hf; subst. rewrite Ed.
      destruct (keyword_matches_length d query max_results) as [H1 H2]. split; assumption.
    + inversion Hf; subst. rewrite Ed. split; [simpl; lia | reflexivity].
  - inversion Hf; subst. split; [simpl; lia|].
    destruct (_df _); [simpl; lia | reflexivity].
Qed.

End AnyQuery.

Lemma find_relevant_size_witness :
  find_relevant (pandas := stable_pandas) Examples.disk Examples.fresh "love story" 1
  = (Examples.loaded, Ok [to_dataset_row Examples.row_love_story])
  /\ (0 <= 1 -> Z.of_nat (length [to_dataset_row Examples.row_love_story]) <= 1)
  /\ match _df Examples.loaded with
     | Some d => (length [to_dataset_row Examples.row_love_story] <= length d)%nat
     | None => [to_dataset_row Examples.row_love_story] = []
     end.
Proof.
  assert (Hf : find_relevant (pandas := stable_pandas) Examples.disk Examples.fresh
                 "love story" 1
               = (Examples.loaded, Ok [to_dataset_row Examples.row_love_story]))
    by (vm_compute; reflexivity).
  split; [exact Hf|].
  exact (find_relevant_size (pandas := stable_pandas) Examples.disk Examples.fresh
           Examples.loaded "love story" 1 _ Hf).
Defined.

(** ** Loading *)

Lemma load_loop_cases (fs : FileSystem) (self : Service) (p : string) (encs : list Encoding) :
  (load_loop fs self p encs = (mkService (csv_path self) false None, false)
   /\ forall enc, In enc encs -> read_normalized fs p enc = None)
  \/ (exists before enc after d,
        encs = (before ++ enc :: after)%list
        /\ (forall e, In e before -> read_normalized fs p e = None)
        /\ read_normalized fs p enc = Some d
        /\ load_loop fs self p encs = (mkService (csv_path self) true (Some d), true)).
Proof.
  induction encs as [|enc encs IH]; simpl.
  - left. split; [reflexivity | intros enc []].
  - destruct (read_normalized fs p enc) as [d|] eqn:Er.
    + right. exists [], enc, encs, d. repeat split; auto. intros e [].
    + destruct IH as [[Hl Hall]|(before & enc' & after & d & -> & Hb & Hr & Hl)].
      * left. split; [exact Hl|]. intros e [<-|He]; auto.
      * right. exists (enc :: before), enc', after, d. repeat split; auto.
        intros e [<-|He]; auto.
Qed.

Lemma load_dataset_cases (fs : FileSystem) (self : Service) :
  (load_dataset fs self = (mkService (csv_path self) false None, false)
   /\ forall p, csv_path self = Some p -> path_exists fs p = true ->
      forall enc, In enc try_encodings -> read_normalized fs p enc = None)
  \/ (exists p before enc after d,
        csv_path self = Some p /\ path_exists fs p = true
        /\ try_encodings = (before ++ enc :: after)%list
        /\ (forall e, In e before -> read_normalized fs p e = None)
        /\ read_normalized fs p enc = Some d
        /\ load_dataset fs self = (mkService (csv_path self) true (Some d), true)).
Proof.
  unfold load_dataset.
  destruct (csv_path self) as [p|] eqn:Ep.
  - destruct (path_exists fs p) eqn:Ex.
    + destruct (load_loop_cases fs self p try_encodings)
        as [[Hl Hall]|(before & enc & after & d & Ee & Hb & Hr & Hl)].
      * left. rewrite Hl, Ep. split; [reflexivity|].
        intros p' Hp _. inversion Hp; subst. exact Hall.
      * right. exists p, before, enc, after, d. rewrite Hl, Ep. repeat split; auto.
    + left. split; [reflexivity|]. intros p' Hp Hx. inversion Hp; subst. congruence.
  - left. split; [reflexivity|]. intros p' Hp. discriminate.
Qed.

Lemma load_dataset_keeps_path (fs : FileSystem) (self : Service) :
  csv_path (fst (load_dataset fs self)) = csv_path self.
Proof.
  destruct (load_dataset_cases fs self)
    as [[Hl _]|(p & before & enc & after & d & _ & _ & _ & _ & _ & Hl)];
    now rewrite Hl.
Qed.

(** X5: [load_dataset] returns [True] exactly when the service is available
    afterwards; it succeeds exactly when the configured path exists and some
    encoding reads, and the frame kept is the one read under the first
    encoding, in the order utf-8, utf-8-sig, cp1252, that reads. *)
Theorem load_dataset_outcome (fs : FileSystem) (self : Service) :
  snd (load_dataset fs self) = is_available fs (fst (load_dataset fs self))
  /\ csv_path (fst (load_dataset fs self)) = csv_path self
  /\ (snd (load_dataset fs self) = true <->
      exists p before enc after d,
        csv_path self = Some p /\ path_exists fs p = true
        /\ try_encodings = (before ++ enc :: after)%list
        /\ (forall e, In e before -> read_normalized fs p e = None)
        /\ read_normalized fs p enc = Some d
        /\ _df (fst (load_dataset fs self)) = Some d).
Proof.
  destruct (load_dataset_cases fs self)
    as [[Hl Hall]|(p & before & enc & after & d & Hp & Hx & Ee & Hb & Hr & Hl)];
    rewrite Hl; cbn [fst snd csv_path _df].
  - split; [symmetry; now apply unloaded_not_available|]. split; [reflexivity|].
    split; [discriminate|].
    intros (p & before & enc & after & d & Hp & Hx & Ee & _ & Hr & _).
    rewrite (Hall p Hp Hx enc) in Hr; [discriminate|].
    rewrite Ee. apply in_or_app. right. now left.
  - split; [unfold is_available; cbn [csv_path _loaded _df]; now rewrite Hp, Hx|].
    split; [reflexivity|]. split; [|reflexivity]. intros _.
    exists p, before, enc, after, d. repeat split; auto.
Qed.

Lemma load_dataset_by_path (fs : FileSystem) (s1 s2 : Service) :
  csv_path s1 = csv_path s2 -> load_dataset fs s1 = load_dataset fs s2.
Proof.
  intros E. unfold load_dataset. rewrite E.
  destruct (csv_path s2) as [p|] eqn:E2; [|reflexivity].
  destruct (path_exists fs p); [|reflexivity].
  generalize try_encodings. intros encs.
  induction encs as [|enc encs IH]; simpl; [now rewrite E, E2|].
  destruct (read_normalized fs p enc); [now rewrite E, E2 | exact IH].
Qed.

Section LazyLoad.
Context {pandas : Pandas}.

(** X6: a service that is not loaded answers a query as it would after an
    explicit [load_dataset]: the result and the state left are the same. *)
Theorem find_relevant_loads_lazily (fs : FileSystem) (self : Service) (query : string)
    (max_results : Z) :
  _loaded self = false ->
  find_relevant fs self query max_results
  = find_relevant fs (fst (load_dataset fs self)) query max_results.
Proof.
  intros Hl.
  pose proof (load_dataset_keeps_path fs self) as Hp.
  set (s0 := fst (load_dataset fs self)) in *.
  assert (E0 : (if is_available fs s0 then s0
                else if _loaded s0 then s0 else fst (load_dataset fs s0)) = s0).
  { destruct (is_available fs s0); [reflexivity|].
    destruct (_loaded s0); [reflexivity|].
    now rewrite (load_dataset_by_path fs s0 self Hp). }
  unfold find_relevant. rewrite (unloaded_not_available fs self Hl), Hl.
  fold s0. cbv zeta. now rewrite E0.
Qed.

End LazyLoad.

Lemma find_relevant_loads_lazily_witness :
  _loaded Examples.fresh = false
  /\ find_relevant (pandas := stable_pandas) Examples.disk Examples.fresh "love story" 12
     = find_relevant (pandas := stable_pandas) Examples.disk
         (fst (load_dataset Examples.disk Examples.fresh)) "love story" 12.
Proof.
  assert (Hl : _loaded Examples.fresh = false) by reflexivity.
  split; [exact Hl|].
  exact (find_relevant_loads_lazily (pandas := stable_pandas) Examples.disk Examples.fresh
           "love story" 12 Hl).
Defined.

(** ** The model listing *)

Lemma dict_get_set_eq (key : string) (v : Json) (members : list (string * Json)) :
  dict_get key (dict_set key v members) = Some v.
Proof.
  induction members as [|[k w] rest IH]; simpl.
  - now rewrite String.eqb_refl.
  - destruct (k =? key)%string eqn:E; simpl; rewrite E; [reflexivity | exact IH].
Qed.

Lemma dict_get_set_ne (key other : string) (v : Json) (members : list (string * Json)) :
  other <> key ->
  dict_get other (dict_set key v members) = dict_get other members.
Proof.
  intros Hne. induction members as [|[k w] rest IH]; simpl.
  - destruct (String.eqb_spec key other); [congruence | reflexivity].
  - destruct (String.eqb_spec k key) as [->|Hk]; simpl.
    + destruct (String.eqb_spec key other); [congruence | reflexivity].
    + destruct (k =? other)%string; [reflexivity | exact IH].
Qed.

Lemma annotate_models_annotated (items models : list Json) :
  annotate_models items = Ok models ->
  Forall annotated models /\ map name_of models = map name_of items.
Proof.
  revert models. induction items as [|item items IH]; intros models H; simpl in H.
  - inversion H. split; [constructor | reflexivity].
  - destruct item as [| | | | |members]; try discriminate.
    destruct (get_model_info _) as [info|e] eqn:Ei; [|discriminate].
    destruct (annotate_models items) as [rest|e]; [|discriminate].
    inversion H; subst. destruct (IH rest eq_refl) as [Hall Hnames].
    assert (En : name_of (JObj (dict_set "valid"
                   (JBool (validate_model
                      match dict_get "name" members with Some n => n | None => JStr "" end))
                   (dict_set "info" info members)))
                 = match dict_get "name" members with Some n => n | None => JStr "" end).
    { unfold name_of. rewrite !dict_get_set_ne by discriminate. reflexivity. }
    split.
    + constructor; [|exact Hall].
      eexists. exists info. split; [reflexivity|]. rewrite En.
      split; [exact Ei|]. split.
      * rewrite dict_get_set_ne by discriminate. apply dict_get_set_eq.
      * apply dict_get_set_eq.
    + simpl map. rewrite Hnames. f_equal. exact En.
Qed.

(** X7: every model [get_available_models] returns is an object that
    carries, under [info], the entry of the local table for its name and,
    under [valid], whether [validate_model] accepts the name; the name itself
    is the one the backend gave. *)
Theorem available_models_annotated (backend : Backend) (log : list Request)
    (models : list Json) (m : Json) :
  fst (get_available_models backend log) = Ok models -> In m models ->
  annotated m
  /\ exists top items,
       backend tags_request = Body (JObj top)
       /\ dict_get "models" top = Some (JArr items)
       /\ map name_of models = map name_of items.
Proof.
  rewrite get_available_models_run. cbn [fst]. intros Hm Hin. inversion Hm; subst models.
  unfold available in *.
  destruct (backend tags_request) as [j| | | |]; try (destruct Hin).
  destruct j as [| | | | |top]; try (destruct Hin).
  destruct (dict_get "models" top) as [ms|] eqn:Em; [|destruct Hin].
  destruct ms as [| | |s|items|members]; simpl in Hin; try (destruct Hin).
  - destruct s; destruct Hin.
  - destruct (annotate_models items) as [models|e] eqn:Ea; [|destruct Hin].
    destruct (annotate_models_annotated items models Ea) as [Hall Hnames].
    split.
    + rewrite List.Forall_forall in Hall. now apply Hall.
    + exists top, items. simpl. rewrite Ea. repeat split; auto.
  - destruct members; destruct Hin.
Qed.

Lemma available_models_annotated_witness :
  let backend := Examples.listing ["mistral"; "llama3.2:3b"] "Hi!" in
  exists models m,
    fst (get_available_models backend []) = Ok models /\ In m models
    /\ name_of m = JStr "mistral"
    /\ annotated m.
Proof.
  intros backend.
  assert (Hm : fst (get_available_models backend [])
               = Ok (available backend)) by (now rewrite get_available_models_run).
  assert (Hin : In (nth 0 (available backend) JNull) (available backend))
    by (vm_compute; auto).
  exists (available backend), (nth 0 (available backend) JNull).
  split; [exact Hm|]. split; [exact Hin|]. split; [vm_compute; reflexivity|].
  exact (proj1 (available_models_annotated backend [] _ _ Hm Hin)).
Defined.

(** X8: when the health probe fails, [get_available_models] returns the
    empty list; a backend that lists a model passes the probe. *)
Theorem unhealthy_lists_nothing (backend : Backend) (log log' : list Request) :
  fst (check_server_health backend log) = Ok false ->
  get_available_models backend log' = (Ok [], (log' ++ [tags_request])%list).
Proof.
  rewrite check_server_health_run, get_available_models_run. cbn [fst].
  unfold healthy, available. intros H.
  destruct (backend tags_request); try reflexivity. discriminate.
Qed.

Lemma unhealthy_lists_nothing_witness :
  fst (check_server_health (fun req => ConnectionFailed) []) = Ok false
  /\ get_available_models (fun req => ConnectionFailed) [tags_request]
     = (Ok [], [tags_request; tags_request]).
Proof.
  assert (H : fst (check_server_health (fun req => ConnectionFailed) []) = Ok false)
    by reflexivity.
  split; [exact H|].
  exact (unhealthy_lists_nothing (fun req => ConnectionFailed) [] [tags_request] H).
Defined.

(** ** Streaming and history *)




Lemma generate_with_context_run (backend : Backend) (config : Config) (message : string)
    (history : list (string * string)) (model : option Json)
    (system_prompt : option string) (log : list Request) :
  let payload := context_payload config message history model system_prompt in
  generate_with_context backend config message history model system_prompt log
  = (Ok (match reply_content (backend (chat_request payload)) with
         | Some content => content
         | None => JStr (general_error_message config)
         end),
     (log ++ [chat_request payload])%list).
Proof.
  intros payload.
  exact (generate_single_response_run backend config payload log).
Qed.

(** X10: [generate_with_context] sends one request whose messages are the
    system prompt, the history as given, in its order, and the user message
    last, with the options of the configuration; it returns the content of
    the reply or the configured error message and never raises.  With an
    empty history it is [generate_response] without overrides. *)
Theorem generate_with_context_request (backend : Backend) (config : Config)
    (message : string) (history : list (string * string)) (model : option Json)
    (system_prompt : option string) (log : list Request) :
  (exists answer payload system,
     generate_with_context backend config message history model system_prompt log
     = (Ok answer, (log ++ [chat_request payload])%list)
     /\ messages payload = (("system", system) :: history ++ [("user", message)])%list
     /\ stream payload = false
     /\ Ollama.model payload = model_or_default config model
     /\ num_predict (options payload) = max_tokens config
     /\ answer = match reply_content (backend (chat_request payload)) with
                 | Some content => content
                 | None => JStr (general_error_message config)
                 end)
  /\ generate_with_context backend config message [] model system_prompt log
     = generate_response backend config message model system_prompt None None false log.
Proof.
  split.
  - rewrite generate_with_context_run.
    eexists. eexists. eexists. split; [reflexivity|]. repeat split.
  - rewrite generate_with_context_run, generate_response_run. reflexivity.
Qed.

(** ** The local model table *)

Lemma dict_get_absent (key : string) (members : list (string * Json)) :
  ~ In key (map fst members) -> dict_get key members = None.
Proof.
  induction members as [|[k v] rest IH]; simpl; intros Hn; [reflexivity|].
  destruct (String.eqb_spec k key) as [->|Hk]; [tauto|]. apply IH. tauto.
Qed.

(** X11: [get_model_info] never fails on a string; it looks the name up as
    it is, so it gives the entry for custom models unless the name is one of
    the six described family names, and it gives it for every name with a
    tag after a colon, the configured default model among them. *)
Theorem model_info_by_exact_name (name : string) :
  (exists info, get_model_info (JStr name) = Ok info)
  /\ (~ In name described_models -> get_model_info (JStr name) = Ok custom_model_info)
  /\ (contains ":" name = true -> ~ In name described_models)
  /\ get_model_info (JStr (default_model OLLAMA_CONFIG)) = Ok custom_model_info.
Proof.
  split; [unfold get_model_info; eauto|]. split; [|split; [|reflexivity]].
  - intros Hn. unfold get_model_info. now rewrite dict_get_absent.
  - intros Hc Hin. simpl in Hin.
    repeat (destruct Hin as [<-|Hin]; [vm_compute in Hc; discriminate Hc|]).
    destruct Hin.
Qed.

(** ** The chat endpoint *)

Lemma agent_prompt_not_empty (agent : Agent) : agent_prompt agent <> "".
Proof. unfold agent_prompt. rewrite string_app_cons. discriminate. Qed.

Lemma guidance_not_empty (c : string) (base : string) : base ++ guidance c <> "".
Proof.
  unfold guidance, nl, newline. destruct base as [|x base]; [|discriminate].
  rewrite string_app_nil_l, string_app_cons. discriminate.
Qed.

Lemma chat_payload_system (config : Config) (agent : option Agent)
    (dataset_context : option string) (user_message : string) (chosen : Json) :
  messages (chat_payload config user_message (Some chosen)
              (Some (compose_prompt config agent dataset_context))
              (Some (Ollama.temperature config)) (Some (Ollama.max_tokens config)) false)
  = [("system", compose_prompt config agent dataset_context); ("user", user_message)].
Proof.
  unfold chat_payload. cbn [messages].
  destruct (compose_prompt config agent dataset_context) eqn:E; [|reflexivity].
  unfold compose_prompt in E.
  destruct dataset_context as [[|x c]|].
  - destruct agent; [now apply agent_prompt_not_empty in E | now rewrite E].
  - now apply guidance_not_empty in E.
  - destruct agent; [now apply agent_prompt_not_empty in E | now rewrite E].
Qed.

(** X12: in a chat turn with a reachable backend and an installed model, the
    one chat request carries two messages: a system prompt that starts with
    the agent block, or the default prompt when there is no agent, and, when
    there is a dataset context, ends with it after the guidance; then the
    user message as given.  Temperature and token limit are the
    configuration's and the request is not streamed. *)
Theorem chat_turn_request (backend : Backend) (config : Config) (user_message : string)
    (agent : option Agent) (dataset_context : option string) (log : list Request)
    (chosen : Json) :
  healthy backend = true ->
  select_model config (map name_of (available backend)) = Some chosen ->
  exists answer payload system,
    generate_ollama_response_with_context backend config user_message agent
      dataset_context log
    = (Ok answer, (log ++ [tags_request; tags_request; chat_request payload])%list)
    /\ messages payload = [("system", system); ("user", user_message)]
    /\ system
       = base_prompt config agent
         ++ match dataset_context with
            | Some (String c rest) => guidance (String c rest)
            | _ => ""
            end
    /\ (forall c, dataset_context = Some c -> exists before, system = before ++ c)
    /\ stream payload = false
    /\ opt_temperature (options payload) = Ollama.temperature config
    /\ num_predict (options payload) = Ollama.max_tokens config.
Proof.
  intros Hh Hs. rewrite generate_ollama_response_run, Hh, Hs, generate_response_run.
  eexists. eexists. exists (compose_prompt config agent dataset_context).
  split; [now rewrite <- app_assoc|]. split; [apply chat_payload_system|].
  split; [|split; [|repeat split]].
  - unfold compose_prompt, base_prompt.
    destruct dataset_context as [[|x c]|]; try reflexivity; now rewrite string_app_nil_r.
  - intros c ->. unfold compose_prompt. destruct c as [|x c].
    + eexists. now rewrite string_app_nil_r.
    + unfold guidance. eexists. rewrite <- !string_app_assoc. reflexivity.
Qed.

Lemma chat_turn_request_witness :
  healthy (Examples.listing ["a"; "b"] "Hi!") = true
  /\ select_model Examples.config_z
       (map name_of (available (Examples.listing ["a"; "b"] "Hi!"))) = Some (JStr "a")
  /\ exists answer payload system,
       generate_ollama_response_with_context (Examples.listing ["a"; "b"] "Hi!")
         Examples.config_z "hello" None (Some "DATA") []
       = (Ok answer, [tags_request; tags_request; chat_request payload])
       /\ messages payload = [("system", system); ("user", "hello")]
       /\ system = base_prompt Examples.config_z None ++ guidance "DATA".
Proof.
  assert (Hh : healthy (Examples.listing ["a"; "b"] "Hi!") = true) by reflexivity.
  assert (Hs : select_model Examples.config_z
                 (map name_of (available (Examples.listing ["a"; "b"] "Hi!")))
               = Some (JStr "a")) by reflexivity.
  split; [exact Hh|]. split; [exact Hs|].
  destruct (chat_turn_request (Examples.listing ["a"; "b"] "Hi!") Examples.config_z "hello"
              None (Some "DATA") [] (JStr "a") Hh Hs)
    as (answer & payload & system & Hrun & Hm & Hsys & _).
  exists answer, payload, system. split; [exact Hrun|]. split; [exact Hm | exact Hsys].
Defined.

Section Gates.
Context {pandas : Pandas}.

(** X13: [send_message] answers 404 when the user is not found, and when an
    agent is named and not found; in both cases no request goes to the
    backend, and in the first the dataset service is not touched either. *)
Theorem send_message_not_found (db : Chat.Session) (fs : FileSystem) (backend : Backend)
    (config : Config) (svc : Service) (message_data : MessageData) (log : list Request) :
  (get_user_by_id db (md_user_id message_data) = None ->
   send_message db fs backend config svc message_data log
   = (svc, HTTPException 404 "User not found", log))
  /\ (forall uid aid,
        get_user_by_id db (md_user_id message_data) = Some uid ->
        md_agent_id message_data = Some aid -> aid <> 0 ->
        get_agent_by_id db aid = Ok None ->
        send_message db fs backend config svc message_data log
        = (svc, HTTPException 404 "Agent not found", log)).
Proof.
  split.
  - intros Hu. unfold send_message. now rewrite Hu.
  - intros uid aid Hu Ha Hz Hg. unfold send_message, load_agent.
    rewrite Hu, Ha. destruct (Z.eqb_spec aid 0); [contradiction|]. now rewrite Hg.
Qed.

(** X14: when the request carries a response, [send_message] stores it as
    given and sends nothing to the backend. *)
Theorem send_message_provided_response (db : Chat.Session) (fs : FileSystem) (backend : Backend)
    (config : Config) (svc : Service) (message_data : MessageData) (log : list Request)
    (uid : Z) (agent : option Agent) (agent_parts : list string) (c : ascii) (r : string) :
  get_user_by_id db (md_user_id message_data) = Some uid ->
  load_agent db message_data = Ok (Returned (agent, agent_parts)) ->
  md_response message_data = Some (String c r) ->
  exists svc' context_used,
    send_message db fs backend config svc message_data log
    = (svc',
       match add_commit_refresh db (md_user_id message_data) (md_agent_id message_data)
               (md_message message_data) (JStr (String c r)) context_used with
       | Ok db_message => Returned db_message
       | Raise e => HTTPException 500 ("Internal server error: " ++ exc_str e)
       end,
       log).
Proof.
  intros Hu Ha Hr. unfold send_message. rewrite Hu, Ha, Hr.
  destruct (load_dataset_context fs svc message_data) as [[svc' dataset_context] parts].
  unfold Chat.create_chat_message_with_agent. exists svc'. eexists.
  destruct (add_commit_refresh db _ _ _ _ _) eqn:E; rewrite E; reflexivity.
Qed.

(** X15: when the backend does not answer the probe, [send_message] answers
    503 after that one probe: no model listing, no chat request. *)
Theorem send_message_backend_down (db : Chat.Session) (fs : FileSystem) (backend : Backend)
    (config : Config) (svc : Service) (message_data : MessageData) (log : list Request)
    (uid : Z) (agent : option Agent) (agent_parts : list string) :
  get_user_by_id db (md_user_id message_data) = Some uid ->
  load_agent db message_data = Ok (Returned (agent, agent_parts)) ->
  md_response message_data = None \/ md_response message_data = Some "" ->
  healthy backend = false ->
  exists svc',
    send_message db fs backend config svc message_data log
    = (svc',
       HTTPException 503
         "Ollama server is not available. Please ensure Ollama is running locally.",
       (log ++ [tags_request])%list).
Proof.
  intros Hu Ha Hr Hh. unfold send_message. rewrite Hu, Ha.
  destruct (load_dataset_context fs svc message_data) as [[svc' dataset_context] parts].
  exists svc'. rewrite check_server_health_run, Hh.
  destruct Hr as [->| ->]; reflexivity.
Qed.

End Gates.

Lemma send_message_not_found_witness :
  let stranger := mkMessageData 99 "hello" None None in
  let with_agent := mkMessageData 1 "hello" None (Some 5) in
  get_user_by_id Examples.store (md_user_id stranger) = None
  /\ send_message (pandas := stable_pandas) Examples.store Examples.disk
       (Examples.listing ["a"] "Hi!") OLLAMA_CONFIG Examples.fresh stranger []
     = (Examples.fresh, HTTPException 404 "User not found", [])
  /\ send_message (pandas := stable_pandas) Examples.store Examples.disk
       (Examples.listing ["a"] "Hi!") OLLAMA_CONFIG Examples.fresh with_agent []
     = (Examples.fresh, HTTPException 404 "Agent not found", []).
Proof.
  intros stranger with_agent.
  assert (Hu : get_user_by_id Examples.store (md_user_id stranger) = None) by reflexivity.
  destruct (send_message_not_found (pandas := stable_pandas) Examples.store Examples.disk
              (Examples.listing ["a"] "Hi!") OLLAMA_CONFIG Examples.fresh stranger [])
    as [H1 _].
  destruct (send_message_not_found (pandas := stable_pandas) Examples.store Examples.disk
              (Examples.listing ["a"] "Hi!") OLLAMA_CONFIG Examples.fresh with_agent [])
    as [_ H2].
  split; [exact Hu|]. split; [exact (H1 Hu)|].
  apply (H2 1 5); [reflexivity | reflexivity | discriminate | reflexivity].
Defined.

Lemma send_message_provided_response_witness :
  let message_data := mkMessageData 1 "hello there" (Some "General Kenobi") None in
  get_user_by_id Examples.store (md_user_id message_data) = Some 1
  /\ load_agent Examples.store message_data = Ok (Returned (None, []))
  /\ md_response message_data = Some "General Kenobi"
  /\ exists svc' context_used,
       send_message (pandas := stable_pandas) Examples.store Examples.disk
         (Examples.listing ["a"] "Hi!") OLLAMA_CONFIG Examples.fresh message_data []
       = (svc',
          Returned (Chat.mkChatMessage 7 1 None "hello there" (JStr "General Kenobi")
                      context_used 1700000000),
          []).
Proof.
  intros message_data.
  assert (Hu : get_user_by_id Examples.store (md_user_id message_data) = Some 1)
    by reflexivity.
  assert (Ha : load_agent Examples.store message_data = Ok (Returned (None, [])))
    by reflexivity.
  assert (Hr : md_response message_data = Some "General Kenobi") by reflexivity.
  split; [exact Hu|]. split; [exact Ha|]. split; [exact Hr|].
  exact (send_message_provided_response (pandas := stable_pandas) Examples.store
           Examples.disk (Examples.listing ["a"] "Hi!") OLLAMA_CONFIG Examples.fresh
           message_data [] 1 None [] _ _ Hu Ha Hr).
Defined.

Lemma send_message_backend_down_witness :
  get_user_by_id Examples.store (md_user_id Examples.hello) = Some 1
  /\ load_agent Examples.store Examples.hello = Ok (Returned (None, []))
  /\ healthy (fun req => TimedOut) = false
  /\ exists svc',
       send_message (pandas := stable_pandas) Examples.store Examples.disk
         (fun req => TimedOut) OLLAMA_CONFIG Examples.fresh Examples.hello []
       = (svc',
          HTTPException 503
            "Ollama server is not available. Please ensure Ollama is running locally.",
          [tags_request]).
Proof.
  assert (Hu : get_user_by_id Examples.store (md_user_id Examples.hello) = Some 1)
    by reflexivity.
  assert (Ha : load_agent Examples.store Examples.hello = Ok (Returned (None, [])))
    by reflexivity.
  assert (Hh : healthy (fun req => TimedOut) = false) by reflexivity.
  split; [exact Hu|]. split; [exact Ha|]. split; [exact Hh|].
  exact (send_message_backend_down (pandas := stable_pandas) Examples.store Examples.disk
           (fun req => TimedOut) OLLAMA_CONFIG Examples.fresh Examples.hello []
           1 None [] Hu Ha (or_introl eq_refl) Hh).
Defined.


(** ** Redis keys *)

Lemma string_app_inv_head (a x y : string) : a ++ x = a ++ y -> x = y.
Proof.
  induction a as [|c a IH]; [auto|]. rewrite !string_app_cons. intros H.
  inversion H. auto.
Qed.

Lemma split_at_colon (a b x y : string) :
  all_chars not_colon a = true -> all_chars not_colon b = true ->
  a ++ String ":" x = b ++ String ":" y -> a = b /\ x = y.
Proof.
  revert b. induction a as [|c a IH]; intros [|d b] Ha Hb E.
  - inversion E. auto.
  - rewrite string_app_nil_l, string_app_cons in E. inversion E; subst.
    simpl in Hb. discriminate.
  - rewrite string_app_nil_l, string_app_cons in E. inversion E; subst.
    simpl in Ha. discriminate.
  - rewrite !string_app_cons in E. inversion E; subst.
    simpl in Ha, Hb. apply andb_prop in Ha as [_ Ha]. apply andb_prop in Hb as [_ Hb].
    destruct (IH b Ha Hb H1) as [-> ->]. auto.
Qed.

Lemma string_of_uint_no_colon (d : Decimal.uint) :
  all_chars not_colon (NilEmpty.string_of_uint d) = true.
Proof. induction d; simpl; auto. Qed.

Lemma str_of_Z_no_colon (n : Z) : all_chars not_colon (str_of_Z n) = true.
Proof.
  unfold str_of_Z, NilZero.string_of_int, NilZero.string_of_uint.
  destruct (Z.to_int n) as [d|d]; destruct d; simpl; auto using string_of_uint_no_colon.
Qed.

Lemma to_int_not_nil (n : Z) :
  Z.to_int n <> Decimal.Pos Decimal.Nil /\ Z.to_int n <> Decimal.Neg Decimal.Nil.
Proof.
  destruct n as [|p|p]; simpl; split; try discriminate;
    intros H; inversion H as [E]; now apply Unsigned.to_uint_nonnil in E.
Qed.

Lemma str_of_Z_inj (a b : Z) : str_of_Z a = str_of_Z b -> a = b.
Proof.
  unfold str_of_Z. intros E. apply to_int_inj.
  destruct (to_int_not_nil a) as [Ha1 Ha2]. destruct (to_int_not_nil b) as [Hb1 Hb2].
  pose proof (NilZero.isi (Z.to_int a) Ha1 Ha2) as Ia.
  pose proof (NilZero.isi (Z.to_int b) Hb1 Hb2) as Ib.
  rewrite E in Ia. rewrite Ia in Ib. now inversion Ib.
Qed.

Lemma message_key_eq (uid mid : Z) :
  mid <> 0 ->
  get_redis_key uid (Some mid)
  = "chat:user:" ++ str_of_Z uid ++ String ":" ("message:" ++ str_of_Z mid).
Proof. intros H. unfold get_redis_key. now destruct (Z.eqb_spec mid 0). Qed.

Lemma list_key_eq (uid : Z) :
  get_redis_key uid None = "chat:user:" ++ str_of_Z uid ++ String ":" "messages".
Proof. reflexivity. Qed.

Lemma redis_keys_apart (uid uid' mid mid' : Z) :
  mid <> 0 -> mid' <> 0 ->
  (get_redis_key uid (Some mid) = get_redis_key uid' (Some mid') -> uid = uid' /\ mid = mid')
  /\ (get_redis_key uid None = get_redis_key uid' None -> uid = uid')
  /\ get_redis_key uid (Some mid) <> get_redis_key uid' None.
Proof.
  intros Hm Hm'. rewrite !message_key_eq, !list_key_eq by assumption.
  split; [|split].
  - intros E. apply string_app_inv_head in E.
    apply split_at_colon in E as [Eu Em]; try apply str_of_Z_no_colon.
    apply string_app_inv_head in Em. split; now apply str_of_Z_inj.
  - intros E. apply string_app_inv_head in E.
    apply split_at_colon in E as [Eu _]; try apply str_of_Z_no_colon.
    now apply str_of_Z_inj.
  - intros E. apply string_app_inv_head in E.
    apply split_at_colon in E as [_ Em]; try apply str_of_Z_no_colon.
    destruct (str_of_Z mid); discriminate Em.
Qed.

(** X16: the keys do not collide: the key of a message determines the user
    and the message, the list key determines the user, and no key of a
    message is the list key of any user. *)
Theorem redis_keys_distinct (uid uid' mid mid' : Z) :
  mid <> 0 -> mid' <> 0 ->
  (get_redis_key uid (Some mid) = get_redis_key uid' (Some mid') -> uid = uid' /\ mid = mid')
  /\ (get_redis_key uid None = get_redis_key uid' None -> uid = uid')
  /\ get_redis_key uid (Some mid) <> get_redis_key uid' None.
Proof. apply redis_keys_apart. Qed.

Lemma redis_keys_distinct_witness :
  1 <> 0 /\ 23 <> 0
  /\ get_redis_key 12 (Some 3) = "chat:user:12:message:3"
  /\ get_redis_key 1 (Some 23) = "chat:user:1:message:23"
  /\ get_redis_key 12 (Some 3) <> get_redis_key 1 None.
Proof.
  assert (H1 : 3 <> 0) by discriminate. assert (H2 : 23 <> 0) by discriminate.
  split; [discriminate|]. split; [exact H2|].
  split; [reflexivity|]. split; [reflexivity|].
  exact (proj2 (proj2 (redis_keys_distinct 12 1 3 23 H1 H2))).
Defined.

(** ** Caching a message *)

Lemma cache_key_ne (uid : Z) (message : ChatMessage) :
  id message <> 0 ->
  get_redis_key uid (Some (id message)) <> get_redis_key uid None.
Proof.
  intros H. exact (proj2 (proj2 (redis_keys_apart uid uid (id message) (id message) H H))).
Qed.

Lemma same_member_refl (a : CachedMessage) : same_member a a = true.
Proof.
  unfold same_member. now rewrite !Z.eqb_refl, !String.eqb_refl.
Qed.

Lemma same_member_eq (a b : CachedMessage) : same_member a b = true <-> a = b.
Proof.
  split; [|intros ->; apply same_member_refl].
  unfold same_member. destruct a, b; simpl. intros H.
  repeat (apply andb_prop in H as [H ?]).
  repeat match goal with
         | E : (_ =? _) = true |- _ => apply Z.eqb_eq in E
         | E : (_ =? _)%string = true |- _ => apply String.eqb_eq in E
         end.
  now subst.
Qed.

(** The other members of a sorted set, as [zadd] keeps them. *)
Lemma others_again (member : CachedMessage) (score : Z)
    (members : list (CachedMessage * Z)) :
  let others := List.filter (fun ms => negb (same_member (fst ms) member)) members in
  List.filter (fun ms => negb (same_member (fst ms) member)) (others ++ [(member, score)])
  = others.
Proof.
  intros others. rewrite List.filter_app. simpl. rewrite same_member_refl. simpl.
  rewrite List.app_nil_r. unfold others.
  induction members as [|m ms IH]; simpl; [reflexivity|].
  destruct (negb (same_member m.1 member)) eqn:E; simpl; [rewrite E; now f_equal | exact IH].
Qed.

(** What [cache_chat_message] does on a reachable server when the message
    has an id and the list key holds no string. *)
Lemma cache_chat_message_run (r : Redis) (uid : Z) (message : ChatMessage) :
  reachable r = true -> id message <> 0 ->
  sorted_set_or_free r (get_redis_key uid None) ->
  cache_chat_message (Some r) uid message
  = (Some (mkRedis true
             (<[get_redis_key uid None :=
                  (RSortedSet
                     (List.filter
                        (fun ms => negb (same_member (fst ms) (message_data_of message)))
                        (members_at r (get_redis_key uid None))
                      ++ [(message_data_of message, created_at message)]), Some 3600)]>
                (<[get_redis_key uid (Some (id message)) :=
                     (RString (message_data_of message), Some 3600)]> (keys r)))),
     true).
Proof.
  intros Hr Hid Hfree.
  pose proof (cache_key_ne uid message Hid) as Hne.
  unfold cache_chat_message, setex. rewrite Hr.
  fold (message_data_of message).
  set (point := get_redis_key uid (Some (id message))) in *.
  set (index := get_redis_key uid None) in *.
  set (data := message_data_of message).
  unfold zadd. cbn [reachable keys].
  rewrite lookup_insert_ne by exact Hne.
  unfold sorted_set_or_free in Hfree. unfold members_at.
  destruct (keys r !! index) as [[[payload|members] ttl]|] eqn:Ei; [destruct Hfree| |].
  - unfold expire. cbn [reachable keys]. rewrite lookup_insert_eq.
    now rewrite insert_insert_eq.
  - unfold expire. cbn [reachable keys]. rewrite lookup_insert_eq.
    now rewrite insert_insert_eq.
Qed.

(** When the message cannot be cached. *)
Lemma cache_chat_message_fails (r : Redis) (uid : Z) (message : ChatMessage) :
  reachable r = false \/ id message = 0
  \/ ~ sorted_set_or_free r (get_redis_key uid None) ->
  snd (cache_chat_message (Some r) uid message) = false.
Proof.
  intros H. unfold cache_chat_message, setex.
  destruct (reachable r) eqn:Hr; [|reflexivity].
  destruct H as [H|[H|H]]; [discriminate| |].
  - unfold get_redis_key at 1. rewrite H. simpl (0 =? 0). cbv iota.
    unfold zadd. cbn [reachable keys get_redis_key]. now rewrite lookup_insert_eq.
  - destruct (Z.eq_dec (id message) 0) as [E|Hid].
    + unfold get_redis_key at 1. rewrite E. simpl (0 =? 0). cbv iota.
      unfold zadd. cbn [reachable keys get_redis_key]. now rewrite lookup_insert_eq.
    + pose proof (cache_key_ne uid message Hid) as Hne.
      unfold zadd. cbn [reachable keys]. rewrite lookup_insert_ne by exact Hne.
      unfold sorted_set_or_free in H.
      destruct (keys r !! get_redis_key uid None) as [[[payload|members] ttl]|];
        [reflexivity | destruct H; exact I | destruct H; exact I].
Qed.

Lemma sorted_set_or_free_dec (r : Redis) (key : string) :
  sorted_set_or_free r key \/ ~ sorted_set_or_free r key.
Proof.
  unfold sorted_set_or_free.
  destruct (keys r !! key) as [[[payload|members] ttl]|]; auto.
Qed.

(** X17: [cache_chat_message] returns [True] exactly when a client exists,
    the server is reachable, the message has an id other than 0 and the list
    key of the user holds no string. *)
Theorem cache_chat_message_succeeds_iff (redis_client : option Redis) (uid : Z)
    (message : ChatMessage) :
  snd (cache_chat_message redis_client uid message) = true
  <-> exists r, redis_client = Some r /\ reachable r = true /\ id message <> 0
                /\ sorted_set_or_free r (get_redis_key uid None).
Proof.
  split.
  - destruct redis_client as [r|]; [|discriminate]. intros H. exists r.
    split; [reflexivity|].
    destruct (reachable r) eqn:Hr.
    + destruct (Z.eq_dec (id message) 0) as [E|Hid].
      * rewrite cache_chat_message_fails in H by auto. discriminate.
      * destruct (sorted_set_or_free_dec r (get_redis_key uid None)) as [Hf|Hf]; [auto|].
        rewrite cache_chat_message_fails in H by auto. discriminate.
    + rewrite cache_chat_message_fails in H by auto. discriminate.
  - intros (r & -> & Hr & Hid & Hf). now rewrite cache_chat_message_run.
Qed.

(** X18: after a successful call the key of the message holds the message
    data for 3600 seconds, the list key holds for 3600 seconds a sorted set
    in which the message data has the score [created_at] and every other
    member is kept with its score, and no other key changes. *)
Theorem cache_chat_message_stores (r : Redis) (uid : Z) (message : ChatMessage) :
  reachable r = true -> id message <> 0 ->
  sorted_set_or_free r (get_redis_key uid None) ->
  exists r' members,
    cache_chat_message (Some r) uid message = (Some r', true)
    /\ reachable r' = true
    /\ keys r' !! get_redis_key uid (Some (id message))
       = Some (RString (message_data_of message), Some 3600)
    /\ keys r' !! get_redis_key uid None = Some (RSortedSet members, Some 3600)
    /\ (forall member score,
          In (member, score) members
          <-> (member = message_data_of message /\ score = created_at message)
              \/ (member <> message_data_of message
                  /\ In (member, score) (members_at r (get_redis_key uid None))))
    /\ (forall key,
          key <> get_redis_key uid (Some (id message)) -> key <> get_redis_key uid None ->
          keys r' !! key = keys r !! key).
Proof.
  intros Hr Hid Hf. pose proof (cache_key_ne uid message Hid) as Hne.
  eexists _, _. split; [apply cache_chat_message_run; assumption|].
  cbn [reachable keys]. split; [reflexivity|].
  split; [rewrite lookup_insert_ne by (intros E; now apply Hne); apply lookup_insert_eq|].
  split; [apply lookup_insert_eq|]. split.
  - intros member score. rewrite in_app_iff, List.filter_In. simpl. split.
    + intros [[Hin Hnot]|[E|[]]].
      * right. split; [|exact Hin]. intros ->. now rewrite same_member_refl in Hnot.
      * inversion E; subst. now left.
    + intros [[-> ->]|[Hm Hin]]; [right; now left|]. left. split; [exact Hin|].
      destruct (same_member member (message_data_of message)) eqn:E; [|reflexivity].
      now apply same_member_eq in E.
  - intros key H1 H2. now rewrite !lookup_insert_ne by (intros E; congruence).
Qed.

Lemma cache_chat_message_stores_witness :
  reachable (mkRedis true ∅) = true
  /\ id (mkChatMessage 7 1 "hi" "hello" 1700000000) <> 0
  /\ sorted_set_or_free (mkRedis true ∅) (get_redis_key 1 None)
  /\ exists r' members,
       cache_chat_message (Some (mkRedis true ∅)) 1 (mkChatMessage 7 1 "hi" "hello" 1700000000)
       = (Some r', true)
       /\ keys r' !! "chat:user:1:message:7"
          = Some (RString (mkCachedMessage 7 1 "hi" "hello" 1700000000), Some 3600)
       /\ keys r' !! "chat:user:1:messages" = Some (RSortedSet members, Some 3600).
Proof.
  assert (H1 : reachable (mkRedis true ∅) = true) by reflexivity.
  assert (H2 : id (mkChatMessage 7 1 "hi" "hello" 1700000000) <> 0) by discriminate.
  assert (H3 : sorted_set_or_free (mkRedis true ∅) (get_redis_key 1 None)) by exact I.
  split; [exact H1|]. split; [exact H2|]. split; [exact H3|].
  destruct (cache_chat_message_stores _ 1 _ H1 H2 H3) as (r' & members & E & _ & Ep & Ei & _).
  exists r', members. split; [exact E|]. split; [exact Ep | exact Ei].
Defined.

Lemma insert_pair_again {V : Type} (m : gmap string V) (point index : string) (p v : V) :
  point <> index ->
  <[index := v]> (<[point := p]> (<[index := v]> (<[point := p]> m)))
  = <[index := v]> (<[point := p]> m).
Proof.
  intros Hne. apply map_eq. intros k.
  destruct (decide (k = index)) as [->|Hi]; [now rewrite !lookup_insert_eq|].
  rewrite !(lookup_insert_ne _ index k) by congruence.
  destruct (decide (k = point)) as [->|Hp]; [now rewrite !lookup_insert_eq|].
  now rewrite !lookup_insert_ne by congruence.
Qed.

(** X19: caching a message that has just been cached changes nothing: the
    second call succeeds and leaves the server as the first left it. *)
Theorem cache_chat_message_idempotent (r r1 : Redis) (uid : Z) (message : ChatMessage) :
  cache_chat_message (Some r) uid message = (Some r1, true) ->
  cache_chat_message (Some r1) uid message = (Some r1, true).
Proof.
  intros H.
  assert (Hs : snd (cache_chat_message (Some r) uid message) = true) by now rewrite H.
  destruct (reachable r) eqn:Hr;
    [|rewrite cache_chat_message_fails in Hs by auto; discriminate].
  destruct (Z.eq_dec (id message) 0) as [E|Hid];
    [rewrite cache_chat_message_fails in Hs by auto; discriminate|].
  destruct (sorted_set_or_free_dec r (get_redis_key uid None)) as [Hf|Hf];
    [|rewrite cache_chat_message_fails in Hs by auto; discriminate].
  pose proof (cache_key_ne uid message Hid) as Hne.
  rewrite cache_chat_message_run in H by assumption.
  remember (get_redis_key uid (Some (id message))) as point eqn:Ep.
  remember (get_redis_key uid None) as index eqn:Ei.
  injection H as <-.
  rewrite cache_chat_message_run; [|reflexivity|exact Hid|].
  - rewrite <- Ep, <- Ei. unfold members_at at 1. cbn [keys].
    rewrite lookup_insert_eq, others_again. do 3 f_equal.
    now apply insert_pair_again.
  - unfold sorted_set_or_free. rewrite <- Ei. cbn [keys]. now rewrite lookup_insert_eq.
Qed.

Lemma cache_chat_message_idempotent_witness :
  exists r1,
    cache_chat_message (Some (mkRedis true ∅)) 1 (mkChatMessage 7 1 "hi" "hello" 1700000000)
    = (Some r1, true)
    /\ cache_chat_message (Some r1) 1 (mkChatMessage 7 1 "hi" "hello" 1700000000)
       = (Some r1, true).
Proof.
  eexists.
  assert (H : cache_chat_message (Some (mkRedis true ∅)) 1
                (mkChatMessage 7 1 "hi" "hello" 1700000000)
              = (Some _, true)) by (apply cache_chat_message_run; [reflexivity|discriminate|exact I]).
  split; [exact H|]. exact (cache_chat_message_idempotent _ _ 1 _ H).
Defined.

(** X20: a message whose id is 0 is never cached: on a reachable server the
    call returns [False], and the list key of the user is left holding the
    message data as a string, whatever sorted set it held before. *)
Theorem cache_message_without_id (r : Redis) (uid : Z) (message : ChatMessage) :
  reachable r = true -> id message = 0 ->
  cache_chat_message (Some r) uid message
  = (Some (mkRedis true
             (<[get_redis_key uid None := (RString (message_data_of message), Some 3600)]>
                (keys r))),
     false).
Proof.
  intros Hr Hid. unfold cache_chat_message, setex. rewrite Hr.
  fold (message_data_of message).
  unfold get_redis_key at 1. rewrite Hid. simpl (0 =? 0). cbv iota.
  unfold zadd. cbn [reachable keys get_redis_key]. now rewrite lookup_insert_eq.
Qed.

Lemma cache_message_without_id_witness :
  reachable (mkRedis true ∅) = true
  /\ id (mkChatMessage 0 1 "hi" "hello" 1700000000) = 0
  /\ snd (cache_chat_message (Some (mkRedis true ∅)) 1
            (mkChatMessage 0 1 "hi" "hello" 1700000000)) = false.
Proof.
  assert (H1 : reachable (mkRedis true ∅) = true) by reflexivity.
  assert (H2 : id (mkChatMessage 0 1 "hi" "hello" 1700000000) = 0) by reflexivity.
  split; [exact H1|]. split; [exact H2|].
  now rewrite (cache_message_without_id _ 1 _ H1 H2).
Defined.

(** ** The warm-cache endpoint *)

(** X21: the warm-cache endpoint never reports success and never answers
    500: for a user the user query does not find it answers 404, and for
    every other user it returns [success = False] with the reason in
    [cache_info] and without a [messages_count]; the Redis client is left as
    it was. *)
Theorem warm_cache_endpoint_never_succeeds (redis_client : option Redis) (uid : Z)
    (users : Chat.Session) (db : Users.Session) :
  fst (warm_user_cache_on_demand redis_client uid users db) = redis_client
  /\ match snd (warm_user_cache_on_demand redis_client uid users db) with
     | Chat.HTTPException code detail =>
         Chat.get_user_by_id users uid = None /\ code = 404 /\ detail = "User not found"
     | Chat.Returned result =>
         Chat.get_user_by_id users uid <> None
         /\ success result = VBool false
         /\ warmed_user_id result = uid
         /\ cache_info result !! "messages_count" = None
         /\ (exists reason, cache_info result !! "reason" = Some (VStr reason))
     end.
Proof.
  unfold warm_user_cache_on_demand.
  destruct (Chat.get_user_by_id users uid) as [u|]; [|simpl; auto].
  unfold cache_user_messages_on_login, cache_user_messages_with.
  destruct redis_client as [r|]; simpl; repeat split; try discriminate; eauto.
Qed.

(** ** Messages in the table *)

Lemma filter_nothing {A : Type} (p : A -> bool) (l : list A) :
  (forall x, In x l -> p x = false) -> List.filter p l = [].
Proof.
  induction l as [|a l IH]; simpl; intros H; [reflexivity|].
  rewrite (H a) by now left. apply IH. intros x Hx. apply H. now right.
Qed.

Lemma filter_filter_swap {A : Type} (p q : A -> bool) (l : list A) :
  (forall x, In x l -> p x = true -> q x = true) ->
  List.filter p (List.filter q l) = List.filter p l.
Proof.
  induction l as [|a l IH]; simpl; intros H; [reflexivity|].
  destruct (q a) eqn:Eq; simpl.
  - destruct (p a); [f_equal|]; apply IH; intros x Hx; apply H; now right.
  - destruct (p a) eqn:Ep; [rewrite (H a) in Eq by auto; discriminate|].
    apply IH. intros x Hx. apply H. now right.
Qed.

Lemma first_filter_in {A : Type} (p : Chat.ChatMessage -> bool)
    (rows : list Chat.ChatMessage) (m : Chat.ChatMessage) :
  ChatCRUD.first (List.filter p rows) = Some m -> In m rows /\ p m = true.
Proof.
  intros H. apply List.filter_In.
  destruct (List.filter p rows) as [|x l]; [discriminate|].
  inversion H; subst. now left.
Qed.

Lemma first_filter_some (p : Chat.ChatMessage -> bool) (rows : list Chat.ChatMessage)
    (m : Chat.ChatMessage) :
  In m rows -> p m = true -> exists m', ChatCRUD.first (List.filter p rows) = Some m'.
Proof.
  intros Hin Hp. assert (H : In m (List.filter p rows)) by now apply List.filter_In.
  destruct (List.filter p rows) as [|x l]; [destruct H|]. now exists x.
Qed.

Lemma id_and_user_iff (mid uid : Z) (m : Chat.ChatMessage) :
  ChatCRUD.id_and_user mid uid m = true <-> Chat.id m = mid /\ Chat.user_id m = uid.
Proof.
  unfold ChatCRUD.id_and_user. rewrite andb_true_iff, !Z.eqb_eq. tauto.
Qed.

(** What [delete_chat_message] does for the owner of a message. *)
Lemma delete_chat_message_owner (db : ChatCRUD.Db) (mid uid : Z) (m : Chat.ChatMessage) :
  ChatCRUD.answers db = true ->
  In m (ChatCRUD.chat_messages db) -> Chat.id m = mid -> Chat.user_id m = uid ->
  ChatCRUD.delete_chat_message db mid uid
  = (ChatCRUD.mkDb true
       (List.filter (fun m' => negb (Chat.id m' =? mid)) (ChatCRUD.chat_messages db)),
     Ok true).
Proof.
  intros Ha Hin Hid Hu. unfold ChatCRUD.delete_chat_message, ChatCRUD.query. rewrite Ha.
  destruct (first_filter_some (ChatCRUD.id_and_user mid uid) _ m Hin) as [m' E];
    [now apply id_and_user_iff|].
  rewrite E. apply (first_filter_in (A := unit)) in E as [_ E].
  apply id_and_user_iff in E as [-> _]. reflexivity.
Qed.

(** What [delete_chat_message] does for anyone else. *)
Lemma delete_chat_message_stranger (db : ChatCRUD.Db) (mid uid : Z) :
  ChatCRUD.answers db = true ->
  (forall m, In m (ChatCRUD.chat_messages db) -> Chat.id m = mid -> Chat.user_id m <> uid) ->
  List.filter (ChatCRUD.id_and_user mid uid) (ChatCRUD.chat_messages db) = [].
Proof.
  intros Ha H. apply filter_nothing. intros m Hin.
  destruct (ChatCRUD.id_and_user mid uid m) eqn:E; [|reflexivity].
  apply id_and_user_iff in E as [E1 E2]. now destruct (H m Hin E1).
Qed.

(** X22: a message can be read and deleted only by the user it belongs to:
    when no row has both the id and the user id, the lookup finds nothing and
    the endpoint answers 404 and leaves the table as it was. *)
Theorem delete_message_needs_owner (db : ChatCRUD.Db) (mid uid : Z) :
  ChatCRUD.answers db = true ->
  (forall m, In m (ChatCRUD.chat_messages db) -> Chat.id m = mid -> Chat.user_id m <> uid) ->
  ChatCRUD.get_chat_message_by_id db mid uid = None
  /\ Messages.delete_message db mid uid
     = (db, Chat.HTTPException 404
              "Message not found or you don't have permission to delete it").
Proof.
  intros Ha H. pose proof (delete_chat_message_stranger db mid uid Ha H) as E.
  unfold Messages.delete_message, ChatCRUD.delete_chat_message,
    ChatCRUD.get_chat_message_by_id, ChatCRUD.query.
  rewrite Ha, E. split; reflexivity.
Qed.

Lemma delete_message_needs_owner_witness :
  ChatCRUD.answers Examples.chat_db = true
  /\ (forall m, In m (ChatCRUD.chat_messages Examples.chat_db) ->
        Chat.id m = 8 -> Chat.user_id m <> 1)
  /\ ChatCRUD.get_chat_message_by_id Examples.chat_db 8 1 = None
  /\ Messages.delete_message Examples.chat_db 8 1
     = (Examples.chat_db,
        Chat.HTTPException 404 "Message not found or you don't have permission to delete it").
Proof.
  assert (H1 : ChatCRUD.answers Examples.chat_db = true) by reflexivity.
  assert (H2 : forall m, In m (ChatCRUD.chat_messages Examples.chat_db) ->
                 Chat.id m = 8 -> Chat.user_id m <> 1).
  { intros m [<-|[<-|[<-|[]]]]; simpl; intros; discriminate. }
  split; [exact H1|]. split; [exact H2|].
  exact (delete_message_needs_owner Examples.chat_db 8 1 H1 H2).
Defined.

(** X23: for the owner the endpoint deletes: it returns the confirmation,
    the rows left are the rows with another id, unchanged and in their order,
    and the message is found for no user afterwards. *)
Theorem delete_message_removes (db : ChatCRUD.Db) (mid uid : Z) (m : Chat.ChatMessage) :
  ChatCRUD.answers db = true ->
  In m (ChatCRUD.chat_messages db) -> Chat.id m = mid -> Chat.user_id m = uid ->
  exists db',
    Messages.delete_message db mid uid = (db', Chat.Returned "Message deleted successfully")
    /\ ChatCRUD.chat_messages db'
       = List.filter (fun m' => negb (Chat.id m' =? mid)) (ChatCRUD.chat_messages db)
    /\ (forall m', In m' (ChatCRUD.chat_messages db')
                   <-> In m' (ChatCRUD.chat_messages db) /\ Chat.id m' <> mid)
    /\ (forall u, ChatCRUD.get_chat_message_by_id db' mid u = None)
    /\ (forall mid' u, mid' <> mid ->
          ChatCRUD.get_chat_message_by_id db' mid' u
          = ChatCRUD.get_chat_message_by_id db mid' u).
Proof.
  intros Ha Hin Hid Hu. eexists. unfold Messages.delete_message.
  rewrite (delete_chat_message_owner db mid uid m Ha Hin Hid Hu).
  split; [reflexivity|]. cbn [ChatCRUD.chat_messages]. split; [reflexivity|]. split; [|split].
  - intros m'. rewrite List.filter_In, negb_true_iff, Z.eqb_neq. tauto.
  - intros u. unfold ChatCRUD.get_chat_message_by_id, ChatCRUD.query.
    cbn [ChatCRUD.answers ChatCRUD.chat_messages].
    rewrite filter_nothing; [reflexivity|].
    intros x Hx. apply List.filter_In in Hx as [_ Hx].
    apply negb_true_iff, Z.eqb_neq in Hx.
    destruct (ChatCRUD.id_and_user mid u x) eqn:E; [|reflexivity].
    apply id_and_user_iff in E as [E _]. contradiction.
  - intros mid' u Hne. unfold ChatCRUD.get_chat_message_by_id, ChatCRUD.query.
    cbn [ChatCRUD.answers ChatCRUD.chat_messages]. rewrite Ha.
    rewrite filter_filter_swap; [reflexivity|].
    intros x _ Hx. apply id_and_user_iff in Hx as [Hx _].
    apply negb_true_iff, Z.eqb_neq. congruence.
Qed.

Lemma delete_message_removes_witness :
  ChatCRUD.answers Examples.chat_db = true
  /\ In (Chat.mkChatMessage 8 2 None "play" (Ollama.JStr "sure") None 1700000050)
       (ChatCRUD.chat_messages Examples.chat_db)
  /\ exists db',
       Messages.delete_message Examples.chat_db 8 2
       = (db', Chat.Returned "Message deleted successfully")
       /\ ChatCRUD.get_chat_message_by_id db' 8 2 = None.
Proof.
  assert (H1 : ChatCRUD.answers Examples.chat_db = true) by reflexivity.
  assert (H2 : In (Chat.mkChatMessage 8 2 None "play" (Ollama.JStr "sure") None 1700000050)
                 (ChatCRUD.chat_messages Examples.chat_db)) by (right; now left).
  split; [exact H1|]. split; [exact H2|].
  destruct (delete_message_removes Examples.chat_db 8 2 _ H1 H2 eq_refl eq_refl)
    as (db' & E & _ & _ & Hn & _).
  exists db'. split; [exact E | apply Hn].
Defined.

(** ** Statistics *)

Lemma order_by_first_none (before : Z -> Z -> bool) (rows : list Chat.ChatMessage) :
  ChatCRUD.order_by_first before rows = None <-> rows = [].
Proof.
  destruct rows as [|m rest]; simpl; [tauto|].
  destruct (ChatCRUD.order_by_first before rest) as [m'|];
    [destruct (before _ _)|]; split; discriminate.
Qed.

Lemma order_by_first_in (before : Z -> Z -> bool) (rows : list Chat.ChatMessage)
    (m : Chat.ChatMessage) :
  ChatCRUD.order_by_first before rows = Some m -> In m rows.
Proof.
  revert m. induction rows as [|x rest IH]; simpl; intros m H; [discriminate|].
  destruct (ChatCRUD.order_by_first before rest) as [m'|].
  - destruct (before _ _); inversion H; subst; auto.
  - inversion H. auto.
Qed.

Lemma order_by_first_asc (rows : list Chat.ChatMessage) (m : Chat.ChatMessage) :
  ChatCRUD.order_by_first Z.ltb rows = Some m ->
  forall x, In x rows -> Chat.created_at m <= Chat.created_at x.
Proof.
  revert m. induction rows as [|y rest IH]; simpl; intros m H x Hx; [destruct Hx|].
  destruct (ChatCRUD.order_by_first Z.ltb rest) as [m'|] eqn:E.
  - specialize (IH m' eq_refl).
    destruct (Z.ltb_spec (Chat.created_at m') (Chat.created_at y)); inversion H; subst;
      destruct Hx as [<-|Hx]; try lia; specialize (IH x Hx); lia.
  - apply order_by_first_none in E. subst rest. inversion H; subst.
    destruct Hx as [<-|[]]. lia.
Qed.

Lemma order_by_first_desc (rows : list Chat.ChatMessage) (m : Chat.ChatMessage) :
  ChatCRUD.order_by_first Z.gtb rows = Some m ->
  forall x, In x rows -> Chat.created_at x <= Chat.created_at m.
Proof.
  revert m. induction rows as [|y rest IH]; simpl; intros m H x Hx; [destruct Hx|].
  destruct (ChatCRUD.order_by_first Z.gtb rest) as [m'|] eqn:E.
  - specialize (IH m' eq_refl). rewrite Z.gtb_ltb in H.
    destruct (Z.ltb_spec (Chat.created_at y) (Chat.created_at m')); inversion H; subst;
      destruct Hx as [<-|Hx]; try lia; specialize (IH x Hx); lia.
  - apply order_by_first_none in E. subst rest. inversion H; subst.
    destruct Hx as [<-|[]]. lia.
Qed.

Lemma get_chat_statistics_run (db : ChatCRUD.Db) (uid : Z) :
  ChatCRUD.answers db = true ->
  ChatCRUD.get_chat_statistics db uid
  = let rows := List.filter (ChatCRUD.of_user uid) (ChatCRUD.chat_messages db) in
    ChatCRUD.mkStatistics (Z.of_nat (length rows))
      (ChatCRUD.date_of (ChatCRUD.order_by_first Z.ltb rows))
      (ChatCRUD.date_of (ChatCRUD.order_by_first Z.gtb rows)).
Proof.
  intros Ha. unfold ChatCRUD.get_chat_statistics, ChatCRUD.query. now rewrite Ha.
Qed.

(** X24: the statistics are consistent for every database and user: the
    count is not negative, it is 0 exactly when there is no first date and
    exactly when there is no last date, and a first date is never after the
    last date. *)
Theorem chat_statistics_consistent (db : ChatCRUD.Db) (uid : Z) :
  let stats := ChatCRUD.get_chat_statistics db uid in
  0 <= ChatCRUD.total_messages stats
  /\ (ChatCRUD.total_messages stats = 0 <-> ChatCRUD.first_message_date stats = None)
  /\ (ChatCRUD.total_messages stats = 0 <-> ChatCRUD.last_message_date stats = None)
  /\ (forall a b, ChatCRUD.first_message_date stats = Some a ->
                  ChatCRUD.last_message_date stats = Some b -> a <= b).
Proof.
  destruct (ChatCRUD.answers db) eqn:Ha.
  - rewrite (get_chat_statistics_run db uid Ha).
    set (rows := List.filter (ChatCRUD.of_user uid) (ChatCRUD.chat_messages db)).
    cbn zeta. cbn [ChatCRUD.total_messages ChatCRUD.first_message_date
                     ChatCRUD.last_message_date].
    assert (Hlen : Z.of_nat (length rows) = 0 <-> rows = []).
    { destruct rows; simpl; split; try discriminate; try reflexivity; lia. }
    split; [lia|]. split; [|split].
    + rewrite Hlen, <- (order_by_first_none Z.ltb rows).
      destruct (ChatCRUD.order_by_first Z.ltb rows); simpl; split; congruence.
    + rewrite Hlen, <- (order_by_first_none Z.gtb rows).
      destruct (ChatCRUD.order_by_first Z.gtb rows); simpl; split; congruence.
    + intros a b Hf Hl.
      destruct (ChatCRUD.order_by_first Z.ltb rows) as [m1|] eqn:E1; [|discriminate].
      destruct (ChatCRUD.order_by_first Z.gtb rows) as [m2|] eqn:E2; [|discriminate].
      simpl in Hf, Hl. inversion Hf; inversion Hl; subst.
      apply (order_by_first_asc rows m1 E1). now apply order_by_first_in in E2.
  - unfold ChatCRUD.get_chat_statistics, ChatCRUD.query. rewrite Ha. simpl.
    repeat split; try discriminate; try reflexivity; lia.
Qed.

(** X25: when the database answers, every message of the user is counted
    and lies between the first and the last date. *)
Theorem chat_statistics_bound (db : ChatCRUD.Db) (uid : Z) (m : Chat.ChatMessage) :
  ChatCRUD.answers db = true ->
  In m (ChatCRUD.chat_messages db) -> Chat.user_id m = uid ->
  let stats := ChatCRUD.get_chat_statistics db uid in
  0 < ChatCRUD.total_messages stats
  /\ exists a b,
       ChatCRUD.first_message_date stats = Some a
       /\ ChatCRUD.last_message_date stats = Some b
       /\ a <= Chat.created_at m <= b.
Proof.
  intros Ha Hin Hu. rewrite (get_chat_statistics_run db uid Ha).
  set (rows := List.filter (ChatCRUD.of_user uid) (ChatCRUD.chat_messages db)).
  cbn zeta. cbn [ChatCRUD.total_messages ChatCRUD.first_message_date
                   ChatCRUD.last_message_date].
  assert (Hm : In m rows).
  { apply List.filter_In. split; [exact Hin|]. unfold ChatCRUD.of_user. now apply Z.eqb_eq. }
  split; [destruct rows; [destruct Hm | simpl; lia]|].
  destruct (ChatCRUD.order_by_first Z.ltb rows) as [m1|] eqn:E1;
    [|apply order_by_first_none in E1; rewrite E1 in Hm; destruct Hm].
  destruct (ChatCRUD.order_by_first Z.gtb rows) as [m2|] eqn:E2;
    [|apply order_by_first_none in E2; rewrite E2 in Hm; destruct Hm].
  exists (Chat.created_at m1), (Chat.created_at m2). simpl.
  split; [reflexivity|]. split; [reflexivity|]. split.
  - exact (order_by_first_asc rows m1 E1 m Hm).
  - exact (order_by_first_desc rows m2 E2 m Hm).
Qed.

Lemma chat_statistics_bound_witness :
  ChatCRUD.answers Examples.chat_db = true
  /\ ChatCRUD.get_chat_statistics Examples.chat_db 1
     = ChatCRUD.mkStatistics 2 (Some 1700000000) (Some 1700000100)
  /\ 0 < ChatCRUD.total_messages (ChatCRUD.get_chat_statistics Examples.chat_db 1).
Proof.
  assert (H1 : ChatCRUD.answers Examples.chat_db = true) by reflexivity.
  assert (H2 : In (Chat.mkChatMessage 9 1 None "bye" (Ollama.JStr "goodbye") None 1700000100)
                 (ChatCRUD.chat_messages Examples.chat_db)) by (right; right; now left).
  split; [exact H1|]. split; [reflexivity|].
  exact (proj1 (chat_statistics_bound Examples.chat_db 1 _ H1 H2 eq_refl)).
Defined.

(** ** Deleting all messages of a user *)

Lemma delete_all_run (db : ChatCRUD.Db) (uid : Z) :
  ChatCRUD.answers db = true ->
  Messages.delete_all_user_messages db uid
  = (ChatCRUD.mkDb true
       (List.filter (fun m => negb (ChatCRUD.of_user uid m)) (ChatCRUD.chat_messages db)),
     Chat.Returned "All messages deleted successfully").
Proof.
  intros Ha. unfold Messages.delete_all_user_messages, ChatCRUD.delete_all_user_messages.
  now rewrite Ha.
Qed.

(** X26: deleting all messages of a user deletes these and no others: the
    endpoint confirms, the user is left with the statistics of a user without
    messages, and for every other user the statistics and every lookup are as
    before. *)
Theorem delete_all_removes_only_own (db : ChatCRUD.Db) (uid : Z) :
  ChatCRUD.answers db = true ->
  exists db',
    Messages.delete_all_user_messages db uid
    = (db', Chat.Returned "All messages deleted successfully")
    /\ ChatCRUD.get_chat_statistics db' uid = ChatCRUD.mkStatistics 0 None None
    /\ (forall mid, ChatCRUD.get_chat_message_by_id db' mid uid = None)
    /\ (forall u, u <> uid ->
          ChatCRUD.get_chat_statistics db' u = ChatCRUD.get_chat_statistics db u
          /\ forall mid, ChatCRUD.get_chat_message_by_id db' mid u
                         = ChatCRUD.get_chat_message_by_id db mid u).
Proof.
  intros Ha. eexists. split; [apply delete_all_run; exact Ha|].
  split; [|split].
  - rewrite get_chat_statistics_run by reflexivity. cbn [ChatCRUD.chat_messages]. cbn zeta.
    rewrite filter_nothing; [reflexivity|].
    intros x Hx. apply List.filter_In in Hx as [_ Hx]. now apply negb_true_iff in Hx.
  - intros mid. unfold ChatCRUD.get_chat_message_by_id, ChatCRUD.query.
    cbn [ChatCRUD.answers ChatCRUD.chat_messages].
    rewrite filter_nothing; [reflexivity|].
    intros x Hx. apply List.filter_In in Hx as [_ Hx].
    apply negb_true_iff in Hx. unfold ChatCRUD.of_user in Hx.
    unfold ChatCRUD.id_and_user. rewrite Hx. apply andb_false_r.
  - intros u Hu.
    assert (Hk : forall x : Chat.ChatMessage,
               Chat.user_id x = u -> negb (ChatCRUD.of_user uid x) = true).
    { intros x Hx. apply negb_true_iff. unfold ChatCRUD.of_user. apply Z.eqb_neq. congruence. }
    split.
    + rewrite !get_chat_statistics_run by (reflexivity || exact Ha).
      cbn [ChatCRUD.chat_messages]. cbn zeta.
      rewrite filter_filter_swap; [reflexivity|].
      intros x _ Hx. apply Hk. unfold ChatCRUD.of_user in Hx. now apply Z.eqb_eq.
    + intros mid. unfold ChatCRUD.get_chat_message_by_id, ChatCRUD.query.
      cbn [ChatCRUD.answers ChatCRUD.chat_messages]. rewrite Ha.
      rewrite filter_filter_swap; [reflexivity|].
      intros x _ Hx. apply Hk. now apply id_and_user_iff in Hx.
Qed.

Lemma delete_all_removes_only_own_witness :
  ChatCRUD.answers Examples.chat_db = true
  /\ exists db',
       Messages.delete_all_user_messages Examples.chat_db 1
       = (db', Chat.Returned "All messages deleted successfully")
       /\ ChatCRUD.get_chat_statistics db' 1 = ChatCRUD.mkStatistics 0 None None
       /\ ChatCRUD.get_chat_statistics db' 2
          = ChatCRUD.mkStatistics 1 (Some 1700000050) (Some 1700000050).
Proof.
  assert (H1 : ChatCRUD.answers Examples.chat_db = true) by reflexivity.
  split; [exact H1|].
  destruct (delete_all_removes_only_own Examples.chat_db 1 H1) as (db' & E & Hs & _ & Ho).
  exists db'. split; [exact E|]. split; [exact Hs|].
  assert (Hne : 2 <> 1) by discriminate.
  rewrite (proj1 (Ho 2 Hne)). reflexivity.
Defined.

(** ** The probes *)

Lemma get_server_info_run (backend : Backend) (log : list Request) :
  Ollama.get_server_info backend log
  = (Ok (server_info_of backend), (log ++ [version_request])%list).
Proof.
  unfold Ollama.get_server_info, try_except, _make_request, ret, server_info_of,
    version_request.
  destruct (backend _); reflexivity.
Qed.

(** X27: the three probes never take their error branch: every call
    returns.  The health probe sends the listing request and then the version
    request, reports [healthy] exactly when the listing request is answered,
    and carries whatever the version request gave, the empty object when it
    failed; the other two send one request each and return the models and the
    server information. *)
Theorem probes_always_return (backend : Backend) (config : Config) (log : list Request) :
  OllamaEndpoints.check_ollama_health backend config log
  = (Ok (Chat.Returned
           {| OllamaEndpoints.status := if healthy backend then "healthy" else "unhealthy";
              OllamaEndpoints.server_info := server_info_of backend;
              OllamaEndpoints.health_base_url := base_url config |}),
     (log ++ [tags_request; version_request])%list)
  /\ OllamaEndpoints.get_available_models backend log
     = (Ok (Chat.Returned (available backend)), (log ++ [tags_request])%list)
  /\ OllamaEndpoints.get_server_info backend log
     = (Ok (Chat.Returned (server_info_of backend)), (log ++ [version_request])%list).
Proof.
  split; [|split].
  - unfold OllamaEndpoints.check_ollama_health, try_except, bind.
    rewrite check_server_health_run, get_server_info_run. unfold ret.
    now rewrite <- app_assoc.
  - unfold OllamaEndpoints.get_available_models, try_except, bind.
    now rewrite get_available_models_run.
  - unfold OllamaEndpoints.get_server_info, try_except, bind.
    now rewrite get_server_info_run.
Qed.
